(** * AI Playground build scripts: staging of the embeddable Python runtime

    A shallow embedding of the two build scripts

      - [WebUI/build/scripts/fetch-python-package-resources.mts]
      - [WebUI/build/scripts/prepare-python-env.mts]

    Strings are the byte strings of the standard library.  The scripts act on
    the file system, on the network, on the console and on the process; those
    effects are threaded through a state-and-outcome monad [M] over a [World]
    that carries a file tree and a trace of the externally visible events.
    The things the scripts only call (the global [fetch], the [adm-zip]
    library, the 7-Zip executable, the [build-paths] module) are parameters
    of the development, gathered in the records [Env] and [BuildPaths]. *)

From Stdlib Require Import String Ascii List Bool ZArith Lia DecimalString.
Import ListNotations.

Local Open Scope list_scope.
Local Open Scope string_scope.

(** ** Strings as the scripts use them *)

(** The line terminator of a template literal. *)
Definition LF : string := String (ascii_of_nat 10) "".

(** [String.prototype.split] with a one-character separator: the pieces
    between the occurrences of [sep], in order; never the empty list. *)
Fixpoint split (sep : ascii) (s : string) : list string :=
  match s with
  | EmptyString => [EmptyString]
  | String c rest =>
      if Ascii.eqb c sep then EmptyString :: split sep rest
      else match split sep rest with
           | piece :: pieces => String c piece :: pieces
           | [] => [String c EmptyString]
           end
  end.

(** Does the character occur in the string? *)
Fixpoint occurs (c : ascii) (s : string) : bool :=
  match s with
  | EmptyString => false
  | String a rest => Ascii.eqb a c || occurs c rest
  end.

(** Number to string conversion of a template literal, for integers. *)
Definition numberToString (n : Z) : string :=
  NilZero.string_of_int (Z.to_int n).

(** [\d] of a JavaScript regular expression without the unicode flags. *)
Definition isDigit (c : ascii) : bool :=
  (48 <=? nat_of_ascii c)%nat && (nat_of_ascii c <=? 57)%nat.

Fixpoint allDigits (s : string) : bool :=
  match s with
  | EmptyString => true
  | String c rest => isDigit c && allDigits rest
  end.

(** The longest run of digits at the head of a string, and what follows. *)
Fixpoint spanDigits (s : string) : string * string :=
  match s with
  | EmptyString => (EmptyString, EmptyString)
  | String c rest =>
      if isDigit c
      then let (digits, tail) := spanDigits rest in (String c digits, tail)
      else (EmptyString, s)
  end.

(** [stripPrefix p s] is what follows [p] in [s], when [s] starts with [p]. *)
Fixpoint stripPrefix (p s : string) : option string :=
  match p with
  | EmptyString => Some s
  | String a p' =>
      match s with
      | EmptyString => None
      | String b s' => if Ascii.eqb a b then stripPrefix p' s' else None
      end
  end.

(** ** JavaScript values that are thrown *)

Inductive JsValue : Type :=
| JsError (name message : string)   (* an instance of Error *)
| JsOther (rendering : string).     (* anything else; its String(...) *)

(** [new Error(message)] *)
Definition newError (message : string) : JsValue := JsError "Error" message.

(** [String(value)], as a template literal renders a caught value. *)
Definition jsString (v : JsValue) : string :=
  match v with
  | JsError name message =>
      if (name =? "") then message
      else if (message =? "") then name
      else name ++ ": " ++ message
  | JsOther rendering => rendering
  end.

(** JavaScript truthiness of a [string | null]. *)
Definition truthy (v : option string) : bool :=
  match v with
  | None => false
  | Some s => negb (s =? "")
  end.

(** ** The file tree *)

#[local] Set Warnings "-register-all".

Inductive node : Type :=
| File (content : string)
| Dir (entries : list (string * node)).

(** The entries of a directory are kept in listing order. *)
Fixpoint assoc (k : string) (es : list (string * node)) : option node :=
  match es with
  | [] => None
  | (k', n) :: rest => if (k' =? k) then Some n else assoc k rest
  end.

(** Replace the entry named [k] where it stands, or add it at the end. *)
Fixpoint setKey (k : string) (n : node) (es : list (string * node))
  : list (string * node) :=
  match es with
  | [] => [(k, n)]
  | (k', n') :: rest =>
      if (k' =? k) then (k, n) :: rest else (k', n') :: setKey k n rest
  end.

Definition removeKey (k : string) (es : list (string * node))
  : list (string * node) :=
  filter (fun e => negb (fst e =? k)) es.

(** A path string names the node reached through its non-empty segments. *)
Definition segments (path : string) : list string :=
  filter (fun s => negb (s =? "")) (split "/" path).

Fixpoint lookup (p : list string) (n : node) : option node :=
  match p with
  | [] => Some n
  | k :: p' =>
      match n with
      | Dir es => match assoc k es with
                  | Some child => lookup p' child
                  | None => None
                  end
      | File _ => None
      end
  end.

(** Removal of a node with everything below it; [None] when nothing is there
    (and for the root, which cannot be removed). *)
Fixpoint remove (p : list string) (n : node) : option node :=
  match p with
  | [] => None
  | k :: p' =>
      match n with
      | File _ => None
      | Dir es =>
          match assoc k es with
          | None => None
          | Some child =>
              match p' with
              | [] => Some (Dir (removeKey k es))
              | _ :: _ =>
                  match remove p' child with
                  | Some child' => Some (Dir (setKey k child' es))
                  | None => None
                  end
              end
          end
      end
  end.

(** Creation of a directory and of its missing ancestors; [None] when a file
    stands on the way or at the end. *)
Fixpoint mkdirp (p : list string) (n : node) : option node :=
  match n with
  | File _ => None
  | Dir es =>
      match p with
      | [] => Some n
      | k :: p' =>
          let child := match assoc k es with
                       | Some c => c
                       | None => Dir []
                       end in
          match mkdirp p' child with
          | Some child' => Some (Dir (setKey k child' es))
          | None => None
          end
      end
  end.

(** Writing a whole file: the parent must be a directory and the target must
    not be one; the file is created or its content replaced. *)
Fixpoint write (p : list string) (data : string) (n : node) : option node :=
  match p with
  | [] => None
  | k :: p' =>
      match n with
      | File _ => None
      | Dir es =>
          match p' with
          | [] =>
              match assoc k es with
              | Some (Dir _) => None
              | _ => Some (Dir (setKey k (File data) es))
              end
          | _ :: _ =>
              match assoc k es with
              | Some child =>
                  match write p' data child with
                  | Some child' => Some (Dir (setKey k child' es))
                  | None => None
                  end
              | None => None
              end
          end
      end
  end.

Definition isSome {A : Type} (o : option A) : bool :=
  match o with Some _ => true | None => false end.

(** The content of the regular file at a path, if there is one. *)
Definition readFile (path : string) (root : node) : option string :=
  match lookup (segments path) root with
  | Some (File content) => Some content
  | _ => None
  end.

(** The names listed in the directory at a path, if there is one. *)
Definition listing (path : string) (root : node) : option (list string) :=
  match lookup (segments path) root with
  | Some (Dir es) => Some (map fst es)
  | _ => None
  end.

(** ** The world the scripts run in *)

(** What a run shows to the outside, besides the files it leaves. *)
Inductive Event : Type :=
| ConsoleLog (message : string)
| ConsoleError (message : string)
| Fetch (url : string)
| Extract (zipFile targetDir : string)
| Spawn (command : string) (args : list string) (cwd : string).

Record World : Type := mkWorld {
  files : node;
  trace : list Event
}.

(** The number of network requests a trace records. *)
Fixpoint requests (t : list Event) : nat :=
  match t with
  | [] => 0
  | Fetch _ :: rest => S (requests rest)
  | _ :: rest => requests rest
  end.

(** What a trace records besides the console: the requests, the extractions
    and the child processes. *)
Definition isWork (e : Event) : bool :=
  match e with
  | ConsoleLog _ | ConsoleError _ => false
  | _ => true
  end.

(** How a computation ends: with a value, with a thrown value (a rejected
    promise for an async function), or with the process terminated. *)
Inductive Outcome (A : Type) : Type :=
| Return (a : A)
| Throw (e : JsValue)
| Exit (code : Z).

Arguments Return {A} a.
Arguments Throw {A} e.
Arguments Exit {A} code.

Definition M (A : Type) : Type := World -> Outcome A * World.

Definition ret {A : Type} (a : A) : M A := fun w => (Return a, w).

Definition bind {A B : Type} (m : M A) (k : A -> M B) : M B :=
  fun w =>
    match m w with
    | (Return a, w') => k a w'
    | (Throw e, w') => (Throw e, w')
    | (Exit code, w') => (Exit code, w')
    end.

Notation "x <- m ;; k" := (bind m (fun x => k))
  (at level 61, m at next level, right associativity).
Notation "m ;; k" := (bind m (fun _ => k))
  (at level 61, right associativity).

Definition throw {A : Type} (e : JsValue) : M A := fun w => (Throw e, w).

(** [process.exit(code)]: nothing after it runs, no [catch] sees it. *)
Definition process_exit {A : Type} (code : Z) : M A := fun w => (Exit code, w).

(** [try { body } catch (error) { handler }] *)
Definition tryCatch {A : Type} (body : M A) (handler : JsValue -> M A) : M A :=
  fun w =>
    match body w with
    | (Throw e, w') => handler e w'
    | result => result
    end.

Definition emit (e : Event) : M unit :=
  fun w => (Return tt, mkWorld (files w) (trace w ++ [e])).

Definition console_log (message : string) : M unit := emit (ConsoleLog message).
Definition console_error (message : string) : M unit := emit (ConsoleError message).

Definition setFiles (root : node) : M unit :=
  fun w => (Return tt, mkWorld root (trace w)).

(** The error of a file-system call that fails. *)
Definition fsError (syscall path : string) : JsValue :=
  JsError "Error" (syscall ++ " failed: '" ++ path ++ "'").

(** *** The calls of [fs] that the scripts make *)

Definition existsSync (path : string) : M bool :=
  fun w => (Return (isSome (lookup (segments path) (files w))), w).

(** [mkdirSync(path, { recursive: true })] *)
Definition mkdirSync_recursive (path : string) : M unit :=
  fun w =>
    match mkdirp (segments path) (files w) with
    | Some root => (Return tt, mkWorld root (trace w))
    | None => (Throw (fsError "mkdir" path), w)
    end.

(** [rmSync(path, { recursive: true })] *)
Definition rmSync_recursive (path : string) : M unit :=
  fun w =>
    match remove (segments path) (files w) with
    | Some root => (Return tt, mkWorld root (trace w))
    | None => (Throw (fsError "rm" path), w)
    end.

Definition readdirSync (path : string) : M (list string) :=
  fun w =>
    match listing path (files w) with
    | Some names => (Return names, w)
    | None => (Throw (fsError "scandir" path), w)
    end.

Definition writeFileSync (path data : string) : M unit :=
  fun w =>
    match write (segments path) data (files w) with
    | Some root => (Return tt, mkWorld root (trace w))
    | None => (Throw (fsError "open" path), w)
    end.

(** [path.join] of a directory and one more piece, both taken as already
    normalized. *)
Definition join (dir piece : string) : string :=
  if (dir =? "") then piece else dir ++ "/" ++ piece.

(** *** The network *)

(** A response body is a stream: it hands over some bytes and then ends,
    or fails with an error. *)
Record Body : Type := mkBody {
  delivered : string;
  failure : option JsValue
}.

Record Response : Type := mkResponse {
  status : Z;
  statusText : string;
  body : option Body
}.

(** [response.ok], as the Fetch standard defines it. *)
Definition ok (r : Response) : bool :=
  (200 <=? status r)%Z && (status r <=? 299)%Z.

Inductive FetchOutcome : Type :=
| Resolved (response : Response)
| Rejected (reason : JsValue).

(** *** What the scripts call and do not define *)

Record Env : Type := mkEnv {
  (* the global fetch: what a request for a URL meets when so many requests
     were made before it *)
  net : string -> nat -> FetchOutcome;
  (* new AdmZip(zipFile).extractAllTo(targetDir, true): the tree it leaves,
     and the error it throws if it does *)
  admZip : string -> string -> node -> node * option JsValue;
  (* spawnSync(command, args, { cwd }): the tree the child leaves, and its
     exit status (null when it did not run to an exit) *)
  childProcess : string -> list string -> string -> node -> node * option Z
}.

(** The configuration object of [build-paths.mts]. *)
Record ResourceFiles : Type := mkResourceFiles {
  pythonEnvArchive : string;
  sevenZipExe : string
}.

Record BuildPaths : Type := mkBuildPaths {
  repoRoot : string;
  buildDir : string;
  resourcesDir : string;
  pythonEnvDir : string;
  resourceFiles : ResourceFiles
}.

(** ** fetch-python-package-resources.mts *)

Module FetchPythonPackageResources.

Record DownloadResult : Type := mkDownloadResult {
  url : string;
  filePath : string;
  success : bool;
  error : option string
}.

(** Get base filename from URL.  The index [length - 1] is always in range,
    [split] never giving the empty list; [EmptyString] stands where
    JavaScript would give [undefined]. *)
Definition getBaseFileName (url : string) : string :=
  let urlPathSegments := split "/" url in
  nth (List.length urlPathSegments - 1) urlPathSegments EmptyString.

Section Script.

Variable env : Env.
Variable buildPaths : BuildPaths.

Let BUILD_DIR : string := buildDir buildPaths.
Let RESOURCES_DIR : string := resourcesDir buildPaths.

(** [await fetch(url)] *)
Definition fetch (url : string) : M Response :=
  fun w =>
    let w' := mkWorld (files w) (trace w ++ [Fetch url]) in
    match net env url (requests (trace w)) with
    | Resolved response => (Return response, w')
    | Rejected reason => (Throw reason, w')
    end.

(** [await pipeline(body, createWriteStream(targetPath))]: the file is opened
    for writing, which creates or truncates it, and receives what the body
    delivers; the promise rejects when the file cannot be opened or when the
    body fails, and then what was written stays. *)
Definition pipeline (source : Body) (targetPath : string) : M unit :=
  fun w =>
    match write (segments targetPath) (delivered source) (files w) with
    | None => (Throw (fsError "open" targetPath), w)
    | Some root =>
        match failure source with
        | Some reason => (Throw reason, mkWorld root (trace w))
        | None => (Return tt, mkWorld root (trace w))
        end
    end.

(** The constant [errorMessage] of [downloadFile]:
    [error instanceof Error ? error.message : String(error)] *)
Definition errorMessage (error : JsValue) : string :=
  match error with
  | JsError _ message => message
  | JsOther _ => jsString error
  end.

(** Download file using built-in fetch API *)
Definition downloadFile (url targetPath : string) : M DownloadResult :=
  tryCatch
    (console_log ("Downloading " ++ url ++ " to " ++ targetPath) ;;
     response <- fetch url ;;
     (if negb (ok response)
      then throw (newError ("HTTP " ++ numberToString (status response)
                              ++ ": " ++ statusText response))
      else ret tt) ;;
     responseBody <- match body response with
                     | None => throw (newError "Response body is null")
                     | Some b => ret b
                     end ;;
     pipeline responseBody targetPath ;;
     console_log ("✅ Downloaded " ++ targetPath ++ " successfully!") ;;
     ret (mkDownloadResult url targetPath true None))
    (fun error =>
       console_error ("❌ Error downloading " ++ url ++ ": "
                        ++ errorMessage error) ;;
       ret (mkDownloadResult url targetPath false (Some (errorMessage error)))).

(** The constant [expectedFilePath] of [downloadFileIfNotPresent]. *)
Definition expectedFilePath (url : string) : string :=
  let fileName := getBaseFileName url in
  resourcesDir buildPaths ++ "/" ++ fileName.

(** Download file if not already present *)
Definition downloadFileIfNotPresent (url : string) : M DownloadResult :=
  present <- existsSync (expectedFilePath url) ;;
  if present
  then
    console_log ("⏭️  Skipping " ++ url ++ " - " ++ expectedFilePath url
                   ++ " already exists") ;;
    ret (mkDownloadResult url (expectedFilePath url) true None)
  else downloadFile url (expectedFilePath url).

(** Prepare target directories *)
Definition prepareDirectories : M unit :=
  console_log "📁 Preparing build directories..." ;;
  buildDirPresent <- existsSync BUILD_DIR ;;
  (if negb buildDirPresent
   then mkdirSync_recursive BUILD_DIR ;;
        console_log ("Created directory: " ++ BUILD_DIR)
   else ret tt) ;;
  resourcesDirPresent <- existsSync RESOURCES_DIR ;;
  (if negb resourcesDirPresent
   then mkdirSync_recursive RESOURCES_DIR ;;
        console_log ("Created directory: " ++ RESOURCES_DIR)
   else ret tt).

(** Main execution function *)
Definition main : M unit :=
  console_log "🚀 Starting Python package resources fetch..." ;;
  console_log ("📂 Repository Root: " ++ repoRoot buildPaths) ;;
  console_log ("📂 Target directory: " ++ resourcesDir buildPaths) ;;
  console_log " except we don't need to do this".

(** Modelled from the spec: the batch acquisition, "one acquire per
    configured URL", which no function of the script performs ([main] calls
    none); the acquisitions run one after the other and every outcome is
    collected. *)
Fixpoint acquireAll (urls : list string) : M (list DownloadResult) :=
  match urls with
  | [] => ret []
  | url :: rest =>
      outcome <- downloadFileIfNotPresent url ;;
      outcomes <- acquireAll rest ;;
      ret (outcome :: outcomes)
  end.

End Script.


End FetchPythonPackageResources.

(** ** prepare-python-env.mts *)

Module PreparePythonEnv.

(** [file.match(/^python(\d+)\._pth$/)]: the first capture group of the
    match, [None] for [null]. *)
Definition pthFilePattern (file : string) : option string :=
  match stripPrefix "python" file with
  | None => None
  | Some rest =>
      let (digits, tail) := spanDigits rest in
      if (digits =? "") then None
      else if (tail =? "._pth") then Some digits
      else None
  end.

(** The loop over the listed files, with its two variables
    [pythonVersion] and [pthFileName]; it stops at the first match. *)
Fixpoint findPthFile (files : list string) : option string * option string :=
  match files with
  | [] => (None, None)
  | file :: rest =>
      match pthFilePattern file with
      | Some version => (Some version, Some file)
      | None => findPthFile rest
      end
  end.

(** The template literal written to the path-configuration file. *)
Definition pthContent (pythonVersion : string) : string :=
  "python" ++ pythonVersion ++ ".zip" ++ LF
  ++ "." ++ LF
  ++ LF
  ++ "# Uncomment to run site.main() automatically" ++ LF
  ++ "import site" ++ LF.

Section Script.

Variable env : Env.
Variable buildPaths : BuildPaths.

Let RESOURCES_DIR : string := resourcesDir buildPaths.
Let PYTHON_ENV_DIR : string := pythonEnvDir buildPaths.

(** Verify all required files exist *)
Definition verifyFilesExist : M unit :=
  console_log "🔍 Verifying all required files exist... We dont need to do this!".

(** Prepare Python environment directory *)
Definition preparePythonEnvDir : M unit :=
  present <- existsSync PYTHON_ENV_DIR ;;
  (if present
   then console_log ("🗑️  Removing existing Python environment: " ++ PYTHON_ENV_DIR) ;;
        rmSync_recursive PYTHON_ENV_DIR
   else ret tt) ;;
  mkdirSync_recursive PYTHON_ENV_DIR ;;
  console_log ("📁 Created Python environment directory: " ++ PYTHON_ENV_DIR).

(** [new AdmZip(zipFile).extractAllTo(targetDir, true)] *)
Definition extractAllTo (zipFile targetDir : string) : M unit :=
  fun w =>
    let (root, thrown) := admZip env zipFile targetDir (files w) in
    let w' := mkWorld root (trace w ++ [Extract zipFile targetDir]) in
    match thrown with
    | Some reason => (Throw reason, w')
    | None => (Return tt, w')
    end.

(** Create Python environment from embeddable Python zip *)
Definition createPythonEnvFromEmbeddableZip (pythonEmbedZipFile : string)
  : M unit :=
  console_log "📦 Extracting embeddable Python..." ;;
  tryCatch
    (extractAllTo pythonEmbedZipFile PYTHON_ENV_DIR ;;
     console_log ("✅ Extracted embeddable Python to: " ++ PYTHON_ENV_DIR))
    (fun error =>
       console_error ("❌ Failed to extract Python zip: " ++ jsString error) ;;
       process_exit 1%Z) ;;
  console_log "⚙️  Configuring Python environment paths..." ;;
  tryCatch
    (files <- readdirSync PYTHON_ENV_DIR ;;
     let (pythonVersion, pthFileName) := findPthFile files in
     (* the test [!pythonVersion || !pthFileName] fails for [null] and for
        the empty string, and narrows both variables to strings *)
     match pythonVersion, pthFileName with
     | Some version, Some name =>
         if negb (truthy pythonVersion) || negb (truthy pthFileName)
         then
           console_error "❌ Could not find python*._pth file in the target directory" ;;
           process_exit 1%Z
         else
           console_log ("🐍 Found Python version: " ++ version
                          ++ " (" ++ name ++ ")") ;;
           let pthFile := join PYTHON_ENV_DIR name in
           writeFileSync pthFile (pthContent version) ;;
           console_log ("✅ Configured Python paths in " ++ name)
     | _, _ =>
         console_error "❌ Could not find python*._pth file in the target directory" ;;
         process_exit 1%Z
     end)
    (fun error =>
       console_error ("❌ Failed to configure Python paths: " ++ jsString error) ;;
       process_exit 1%Z).

(** [spawnSync(command, args, { stdio: 'inherit', cwd })]; the result is
    the [status] of the object it returns. *)
Definition spawnSync (command : string) (args : list string) (cwd : string)
  : M (option Z) :=
  fun w =>
    let (root, exitStatus) := childProcess env command args cwd (files w) in
    (Return exitStatus, mkWorld root (trace w ++ [Spawn command args cwd])).

(** [result.status !== 0] *)
Definition statusIsNotZero (exitStatus : option Z) : bool :=
  match exitStatus with
  | Some code => negb (code =? 0)%Z
  | None => true
  end.

(** Compress Python environment using 7-Zip *)
Definition compressPythonEnvironment : M unit :=
  let targetArchive := pythonEnvArchive (resourceFiles buildPaths) in
  console_log "📦 Compressing Python environment..." ;;
  console_log ("   Source: " ++ pythonEnvDir buildPaths) ;;
  console_log ("   Target: " ++ targetArchive) ;;
  tryCatch
    (present <- existsSync targetArchive ;;
     (if present
      then console_log ("🗑️  Removing existing archive: " ++ targetArchive) ;;
           rmSync_recursive targetArchive
      else ret tt) ;;
     exitStatus <- spawnSync (sevenZipExe (resourceFiles buildPaths))
                     ["a"; targetArchive; join (pythonEnvDir buildPaths) "*"]
                     (buildDir buildPaths) ;;
     (if statusIsNotZero exitStatus
      then console_error "❌ Failed to compress Python environment" ;;
           process_exit 1%Z
      else ret tt) ;;
     console_log ("✅ Python environment compressed to: " ++ targetArchive))
    (fun error =>
       console_error ("❌ Error compressing Python environment: " ++ jsString error) ;;
       process_exit 1%Z).

(** Main execution function *)
Definition main : M unit :=
  console_log "🚀 Starting Python environment preparation..." ;;
  console_log ("📂 Repository Root: " ++ repoRoot buildPaths) ;;
  console_log ("📂 Target directory: " ++ pythonEnvDir buildPaths) ;;
  console_log " This stuff doesn't make sense on linux/docker".

End Script.

End PreparePythonEnv.

(** ** A build tree to run the scripts on *)

Module Scenario.

Definition paths : BuildPaths :=
  mkBuildPaths "/repo" "/repo/build" "/repo/build/resources"
    "/repo/build/python-env"
    (mkResourceFiles "/repo/build/resources/python-env.7z"
       "/repo/build/resources/7zr.exe").

(** The resources directory holds one artifact and a stale archive; the
    staging directory holds a file of an earlier build. *)
Definition tree : node :=
  Dir [("repo",
        Dir [("build",
              Dir [("resources",
                    Dir [("python-embed.zip", File "PK");
                         ("python-env.7z", File "stale")]);
                   ("python-env",
                    Dir [("junk.txt", File "old")])])])].

Definition world : World := mkWorld tree [].

(** A server that knows every artifact but one, and a host that cannot be
    reached. *)
Definition network (url : string) (earlier : nat) : FetchOutcome :=
  if (url =? "https://example.org/dist/missing.zip")
  then Resolved (mkResponse 404 "Not Found" (Some (mkBody "" None)))
  else if (url =? "https://unreachable.invalid/get-pip.py")
  then Rejected (JsError "TypeError" "fetch failed")
  else Resolved (mkResponse 200 "OK" (Some (mkBody "payload" None))).

Fixpoint writeAll (dir : string) (entries : list (string * string))
         (root : node) : option node :=
  match entries with
  | [] => Some root
  | (name, data) :: rest =>
      match write (segments (join dir name)) data root with
      | Some root' => writeAll dir rest root'
      | None => None
      end
  end.

(** An embeddable distribution with two path-configuration files, and an
    archive that holds none. *)
Definition unzip (zipFile targetDir : string) (root : node)
  : node * option JsValue :=
  let entries :=
    if (zipFile =? "/repo/build/resources/python-embed.zip")
    then [("python.exe", "MZ"); ("python312._pth", "python312.zip");
          ("python311._pth", "python311.zip"); ("python312.zip", "PK")]
    else [("README.txt", "nothing here")] in
  match writeAll targetDir entries root with
  | Some root' => (root', None)
  | None => (root, Some (JsError "Error" "Invalid filename"))
  end.

(** A compressor that writes the archive it is asked for, and fails where it
    cannot. *)
Definition sevenZip (command : string) (args : list string) (cwd : string)
           (root : node) : node * option Z :=
  match args with
  | [_; target; _] =>
      match write (segments target) "7z" root with
      | Some root' => (root', Some 0%Z)
      | None => (root, Some 2%Z)
      end
  | _ => (root, Some 7%Z)
  end.

Definition env : Env := mkEnv network unzip sevenZip.

(** The staging directory as the extraction of the distribution leaves it,
    when it was empty. *)
Definition staged : World :=
  mkWorld
    (Dir [("repo",
           Dir [("build",
                 Dir [("resources", Dir [("python-embed.zip", File "PK")]);
                      ("python-env", Dir [])])])])
    [].

End Scenario.

(** ** More build trees and servers *)

Module Cases.

(** A machine on which nothing was built yet. *)
Definition blank : World := mkWorld (Dir []) [].

(** A build tree in which a regular file took the place of the build
    directory. *)
Definition blocked : World :=
  mkWorld (Dir [("repo", Dir [("build", File "not a directory")])]) [].

(** A server whose answers go wrong in the ways [downloadFile] knows: a
    body that breaks off, a response without a body. *)
Definition network (url : string) (earlier : nat) : FetchOutcome :=
  if (url =? "https://example.org/dist/truncated.zip")
  then Resolved (mkResponse 200 "OK"
                   (Some (mkBody "PK-part" (Some (JsError "TypeError" "terminated")))))
  else if (url =? "https://example.org/dist/nobody.zip")
  then Resolved (mkResponse 204 "No Content" None)
  else Scenario.network url earlier.

(** An archive that cannot be read, an archive without entries, and one
    that holds a directory under the name of a path-configuration file. *)
Definition unzip (zipFile targetDir : string) (root : node)
  : node * option JsValue :=
  if (zipFile =? "/repo/build/resources/broken.zip")
  then (root, Some (JsError "Error" "Invalid or unsupported zip format"))
  else if (zipFile =? "/repo/build/resources/empty.zip")
  then (root, None)
  else if (zipFile =? "/repo/build/resources/odd.zip")
  then (Dir [("repo",
              Dir [("build",
                    Dir [("python-env",
                          Dir [("python312._pth", Dir []);
                               ("python.exe", File "MZ")])])])],
        None)
  else Scenario.unzip zipFile targetDir root.

Definition env : Env := mkEnv network unzip Scenario.sevenZip.


End Cases.

(** * Facts about strings *)

Lemma split_not_nil (c : ascii) (s : string) : split c s <> [].
Proof.
  induction s as [|a s IH]; simpl; [discriminate|].
  destruct (Ascii.eqb a c); [discriminate|].
  destruct (split c s); discriminate.
Qed.

Lemma split_without (c : ascii) (s : string) :
  occurs c s = false -> split c s = [s].
Proof.
  induction s as [|a s IH]; simpl; intros H; [reflexivity|].
  apply orb_false_iff in H as [Ha Hs].
  rewrite Ha, (IH Hs). reflexivity.
Qed.

Lemma split_app (c : ascii) (a b : string) :
  split c (a ++ String c b) = (split c a ++ split c b)%list.
Proof.
  induction a as [|x a IH]; simpl.
  - rewrite Ascii.eqb_refl. reflexivity.
  - destruct (Ascii.eqb x c); [now rewrite IH|].
    rewrite IH. destruct (split c a) eqn:E; [|reflexivity].
    now apply split_not_nil in E.
Qed.

Lemma split_pieces (c : ascii) (s : string) :
  Forall (fun piece => occurs c piece = false) (split c s).
Proof.
  induction s as [|a s IH]; simpl.
  - constructor; [reflexivity|constructor].
  - destruct (Ascii.eqb a c) eqn:E.
    + constructor; [reflexivity|assumption].
    + destruct (split c s) as [|p ps]; [repeat constructor; simpl; now rewrite E|].
      inversion IH; subst. constructor; [simpl; now rewrite E|assumption].
Qed.

Lemma split_single (c : ascii) (s p : string) :
  split c s = [p] -> occurs c s = false.
Proof.
  revert p. induction s as [|a s IH]; simpl; intros p H; [reflexivity|].
  destruct (Ascii.eqb a c) eqn:E.
  - inversion H as [[H1 H2]]. now apply split_not_nil in H2.
  - simpl. destruct (split c s) as [|q qs] eqn:Es.
    + now apply split_not_nil in Es.
    + inversion H; subst. now apply (IH q).
Qed.

Lemma nth_last {A : Type} (l : list A) (x d : A) :
  nth (List.length (l ++ [x])%list - 1) (l ++ [x])%list d = x.
Proof.
  rewrite length_app. simpl.
  replace (List.length l + 1 - 1)%nat with (List.length l) by lia.
  rewrite app_nth2 by lia. now rewrite Nat.sub_diag.
Qed.

Lemma occurs_app (c : ascii) (a b : string) :
  occurs c (a ++ b) = occurs c a || occurs c b.
Proof.
  induction a as [|x a IH]; simpl; [reflexivity|].
  now rewrite IH, orb_assoc.
Qed.

(** A string in which the separator occurs ends with the separator followed
    by its last piece. *)
Lemma split_last_decompose (c : ascii) (s : string) :
  occurs c s = true ->
  exists pre,
    s = pre ++ String c (nth (List.length (split c s) - 1) (split c s) "").
Proof.
  induction s as [|a s IH]; simpl; [discriminate|].
  intros H. destruct (occurs c s) eqn:Hs.
  - destruct (IH eq_refl) as [pre Hpre].
    exists (String a pre).
    assert (Hn : split c s <> []) by apply split_not_nil.
    destruct (split c s) as [|p ps] eqn:E; [contradiction|].
    assert (Hps : ps <> []).
    { intros ->. apply split_single in E. congruence. }
    destruct ps as [|p' ps']; [contradiction|].
    simpl. f_equal.
    destruct (Ascii.eqb a c); simpl in *; try rewrite Nat.sub_0_r in *;
      exact Hpre.
  - rewrite orb_false_r in H. rewrite H. exists "".
    apply Ascii.eqb_eq in H. subst a. simpl.
    rewrite (split_without _ _ Hs). reflexivity.
Qed.

(** * Facts about the file tree *)

Lemma assoc_setKey_same (k : string) (n : node) (es : list (string * node)) :
  assoc k (setKey k n es) = Some n.
Proof.
  induction es as [|[k' n'] es IH]; simpl.
  - now rewrite String.eqb_refl.
  - destruct (k' =? k) eqn:E; simpl.
    + now rewrite String.eqb_refl.
    + now rewrite E.
Qed.

Lemma assoc_setKey_other (k k' : string) (n : node) (es : list (string * node)) :
  k' <> k -> assoc k' (setKey k n es) = assoc k' es.
Proof.
  intros Hne. induction es as [|[k0 n0] es IH]; simpl.
  - apply String.eqb_neq in Hne. rewrite String.eqb_sym. now rewrite Hne.
  - destruct (k0 =? k) eqn:E; simpl.
    + apply String.eqb_eq in E. subst k0.
      apply not_eq_sym in Hne. apply String.eqb_neq in Hne. now rewrite Hne.
    + now rewrite IH.
Qed.

Lemma assoc_removeKey_same (k : string) (es : list (string * node)) :
  assoc k (removeKey k es) = None.
Proof.
  induction es as [|[k' n'] es IH]; simpl; [reflexivity|].
  destruct (k' =? k) eqn:E; simpl; [assumption|].
  now rewrite E.
Qed.

(** After a write the file is there, with the content written. *)
Lemma lookup_write_same (p : list string) (data : string) (n n' : node) :
  write p data n = Some n' -> lookup p n' = Some (File data).
Proof.
  revert n n'. induction p as [|k p IH]; simpl; intros n n' H; [discriminate|].
  destruct n as [c|es]; [discriminate|].
  destruct p as [|k2 p].
  - destruct (assoc k es) as [[c|es']|]; inversion H; subst; simpl;
      now rewrite assoc_setKey_same.
  - destruct (assoc k es) as [child|] eqn:E; [|discriminate].
    destruct (write (k2 :: p) data child) as [child'|] eqn:W; [|discriminate].
    inversion H; subst. cbn [lookup]. rewrite assoc_setKey_same.
    now apply (IH child).
Qed.

Lemma write_root (p : list string) (data : string) (n n' : node) :
  write p data n = Some n' -> exists es', n' = Dir es'.
Proof.
  destruct p as [|k p]; simpl; [discriminate|].
  destruct n as [c|es]; [discriminate|].
  destruct p as [|k2 p].
  - destruct (assoc k es) as [[c|es']|]; inversion 1; eauto.
  - destruct (assoc k es) as [child|]; [|discriminate].
    destruct (write (k2 :: p) data child); inversion 1; eauto.
Qed.

(** A write leaves what was there: whatever existed still exists. *)
Lemma lookup_write_preserved (p q : list string) (data : string) (n n' : node) :
  write p data n = Some n' -> lookup q n <> None -> lookup q n' <> None.
Proof.
  revert n n' q. induction p as [|k p IH]; simpl; intros n n' q H; [discriminate|].
  destruct n as [c|es]; [discriminate|].
  destruct q as [|k' q]; [discriminate|].
  cbn [lookup]. destruct (String.eqb_spec k' k) as [->|Hne].
  - destruct p as [|k2 p].
    + destruct (assoc k es) as [[c|es']|] eqn:E; inversion H; subst;
        cbn [lookup]; rewrite assoc_setKey_same; [|congruence].
      destruct q; simpl; congruence.
    + destruct (assoc k es) as [child|] eqn:E; [|discriminate].
      destruct (write (k2 :: p) data child) as [child'|] eqn:W; [|discriminate].
      inversion H; subst. cbn [lookup]. rewrite assoc_setKey_same.
      now apply (IH child).
  - assert (E : exists es', n' = Dir es' /\ assoc k' es' = assoc k' es).
    { destruct p as [|k2 p].
      - destruct (assoc k es) as [[c|es']|]; inversion H; subst;
          eexists; (split; [reflexivity|now apply assoc_setKey_other]).
      - destruct (assoc k es) as [child|]; [|discriminate].
        destruct (write (k2 :: p) data child); inversion H; subst.
        eexists; (split; [reflexivity|now apply assoc_setKey_other]). }
    destruct E as (es' & -> & ->). trivial.
Qed.

(** A write changes no other regular file. *)
Lemma lookup_write_other (p q : list string) (data : string) (n n' : node) :
  write p data n = Some n' -> q <> p ->
  forall content,
    lookup q n' = Some (File content) <-> lookup q n = Some (File content).
Proof.
  revert n n' q. induction p as [|k p IH]; simpl; intros n n' q H Hq content;
    [discriminate|].
  destruct n as [c|es]; [discriminate|].
  destruct q as [|k' q].
  { destruct (write_root (k :: p) data (Dir es) n' H) as [es' ->].
    simpl. split; discriminate. }
  cbn [lookup]. destruct (String.eqb_spec k' k) as [->|Hne].
  - assert (Hq' : q <> p) by congruence.
    destruct p as [|k2 p].
    + destruct q as [|k3 q]; [contradiction|].
      destruct (assoc k es) as [[c|es']|] eqn:E; inversion H; subst;
        cbn [lookup]; rewrite assoc_setKey_same; simpl; split; discriminate.
    + destruct (assoc k es) as [child|] eqn:E; [|discriminate].
      destruct (write (k2 :: p) data child) as [child'|] eqn:W; [|discriminate].
      inversion H; subst. cbn [lookup]. rewrite assoc_setKey_same.
      now apply (IH child).
  - assert (E : exists es', n' = Dir es' /\ assoc k' es' = assoc k' es).
    { destruct p as [|k2 p].
      - destruct (assoc k es) as [[c|es']|]; inversion H; subst;
          eexists; (split; [reflexivity|now apply assoc_setKey_other]).
      - destruct (assoc k es) as [child|]; [|discriminate].
        destruct (write (k2 :: p) data child); inversion H; subst.
        eexists; (split; [reflexivity|now apply assoc_setKey_other]). }
    destruct E as (es' & -> & ->). reflexivity.
Qed.

(** After a removal nothing is there. *)
Lemma lookup_remove_same (p : list string) (n n' : node) :
  remove p n = Some n' -> lookup p n' = None.
Proof.
  revert n n'. induction p as [|k p IH]; simpl; intros n n' H; [discriminate|].
  destruct n as [c|es]; [discriminate|].
  destruct (assoc k es) as [child|] eqn:E; [|discriminate].
  destruct p as [|k2 p].
  - inversion H; subst. simpl. now rewrite assoc_removeKey_same.
  - destruct (remove (k2 :: p) child) as [child'|] eqn:R; [|discriminate].
    inversion H; subst. cbn [lookup]. rewrite assoc_setKey_same.
    now apply (IH child).
Qed.

(** What exists, the root apart, can be removed. *)
Lemma remove_present (p : list string) (n : node) :
  p <> [] -> lookup p n <> None -> remove p n <> None.
Proof.
  revert n. induction p as [|k p IH]; intros n Hp H; [contradiction|].
  simpl in *. destruct n as [c|es]; [contradiction|].
  destruct (assoc k es) as [child|]; [|contradiction].
  destruct p as [|k2 p]; [discriminate|].
  specialize (IH child ltac:(discriminate) H).
  destruct (remove (k2 :: p) child); [discriminate|contradiction].
Qed.

(** A directory made where nothing was is empty. *)
Lemma lookup_mkdirp_fresh (p : list string) (n n' : node) :
  lookup p n = None -> mkdirp p n = Some n' -> lookup p n' = Some (Dir []).
Proof.
  revert n n'. induction p as [|k p IH]; intros n n' Hl Hm; [discriminate|].
  destruct n as [c|es]; [discriminate|].
  cbn [mkdirp] in Hm. cbn [lookup] in Hl.
  destruct (assoc k es) as [child|] eqn:E.
  - destruct (mkdirp p child) as [child'|] eqn:Mk; [|discriminate].
    inversion Hm; subst. cbn [lookup]. rewrite assoc_setKey_same.
    now apply (IH child).
  - destruct (mkdirp p (Dir [])) as [child'|] eqn:Mk; [|discriminate].
    inversion Hm; subst. cbn [lookup]. rewrite assoc_setKey_same.
    destruct p as [|k2 p].
    + simpl in Mk. now inversion Mk.
    + now apply (IH (Dir [])).
Qed.

Lemma mkdirp_cons (k : string) (p : list string) (es : list (string * node)) :
  mkdirp (k :: p) (Dir es) =
    match mkdirp p (match assoc k es with
                    | Some c => c
                    | None => Dir []
                    end) with
    | Some child' => Some (Dir (setKey k child' es))
    | None => None
    end.
Proof.
  reflexivity.
Qed.

(** Where a node was removed, a directory can be made. *)
Lemma mkdirp_after_remove (p : list string) (n n' : node) :
  remove p n = Some n' -> exists n'', mkdirp p n' = Some n''.
Proof.
  revert n n'. induction p as [|k p IH]; intros n n' H; simpl in H;
    [discriminate|].
  destruct n as [c|es]; [discriminate|].
  destruct (assoc k es) as [child|] eqn:E; [|discriminate].
  destruct p as [|k2 p].
  - inversion H; subst. rewrite mkdirp_cons, assoc_removeKey_same.
    cbn [mkdirp]. eauto.
  - destruct (remove (k2 :: p) child) as [child'|] eqn:R; [|discriminate].
    inversion H; subst. rewrite mkdirp_cons, assoc_setKey_same.
    destruct (IH child child' R) as [made ->]. eauto.
Qed.

(** * The fetch script *)

Section FetchFacts.

Import FetchPythonPackageResources.

Variable env : Env.
Variable buildPaths : BuildPaths.

Lemma requests_app (t u : list Event) :
  requests (t ++ u) = (requests t + requests u)%nat.
Proof.
  induction t as [|e t IH]; simpl; [reflexivity|].
  destruct e; simpl; now rewrite IH.
Qed.

Ltac run :=
  unfold downloadFileIfNotPresent, downloadFile, tryCatch, bind, ret, throw,
    existsSync, console_log, console_error, emit, fetch, pipeline in *;
  cbn [files trace fst snd] in *.

(** An acquisition always ends with a value: it neither throws nor exits. *)
Lemma downloadFile_returns (url targetPath : string) (w : World) :
  exists r w', downloadFile env url targetPath w = (Return r, w').
Proof.
  run. destruct (net env url _) as [response|reason]; [|eauto].
  destruct (ok response); cbn; [|eauto].
  destruct (body response) as [b|]; cbn; [|eauto].
  destruct (write _ _ _); [|eauto].
  destruct (failure b); eauto.
Qed.

Lemma downloadFileIfNotPresent_returns (url : string) (w : World) :
  exists r w', downloadFileIfNotPresent env buildPaths url w = (Return r, w').
Proof.
  unfold downloadFileIfNotPresent, bind at 1, existsSync.
  destruct (isSome _).
  - unfold bind, console_log, emit, ret. eauto.
  - apply downloadFile_returns.
Qed.

(** The files change only by a write to the target. *)
Lemma downloadFile_files (url targetPath : string) (w w' : World)
      (r : DownloadResult) :
  downloadFile env url targetPath w = (Return r, w') ->
  files w' = files w \/
  exists data, write (segments targetPath) data (files w) = Some (files w').
Proof.
  run. destruct (net env url _) as [response|reason]; cbn;
    [|inversion 1; now left].
  destruct (ok response); cbn; [|inversion 1; now left].
  destruct (body response) as [b|]; cbn; [|inversion 1; now left].
  destruct (write _ _ _) as [root|] eqn:W; [|inversion 1; now left].
  destruct (failure b); inversion 1; subst; right; cbn; eauto.
Qed.

(** A successful download leaves a file at the target. *)
Lemma downloadFile_success (url targetPath : string) (w w' : World)
      (r : DownloadResult) :
  downloadFile env url targetPath w = (Return r, w') ->
  success r = true ->
  exists response b,
    net env url (requests (trace w)) = Resolved response /\
    ok response = true /\ body response = Some b /\ failure b = None /\
    lookup (segments targetPath) (files w') = Some (File (delivered b)).
Proof.
  run. rewrite requests_app, Nat.add_0_r.
  destruct (net env url _) as [response|reason]; cbn;
    [|inversion 1; subst; discriminate].
  destruct (ok response) eqn:Hok; cbn; [|inversion 1; subst; discriminate].
  destruct (body response) as [b|] eqn:Hb; cbn;
    [|inversion 1; subst; discriminate].
  destruct (write _ _ _) as [root|] eqn:W; [|inversion 1; subst; discriminate].
  destruct (failure b) eqn:Hf; inversion 1; subst; [discriminate|].
  intros _. exists response, b. repeat split; trivial.
  cbn. now apply lookup_write_same in W.
Qed.

Lemma downloadFileIfNotPresent_hit (url : string) (w : World) :
  lookup (segments (expectedFilePath buildPaths url)) (files w) <> None ->
  downloadFileIfNotPresent env buildPaths url w =
    (Return (mkDownloadResult url (expectedFilePath buildPaths url) true None),
     mkWorld (files w)
       (trace w ++ [ConsoleLog ("⏭️  Skipping " ++ url ++ " - " ++ expectedFilePath buildPaths url
                                  ++ " already exists")])).
Proof.
  intros H. unfold downloadFileIfNotPresent, bind at 1, existsSync.
  destruct (lookup _ _); [|contradiction]. reflexivity.
Qed.

Lemma downloadFileIfNotPresent_preserves (url : string) (w w' : World)
      (r : DownloadResult) (q : list string) :
  downloadFileIfNotPresent env buildPaths url w = (Return r, w') ->
  lookup q (files w) <> None -> lookup q (files w') <> None.
Proof.
  unfold downloadFileIfNotPresent, bind at 1, existsSync.
  destruct (isSome _).
  - unfold bind, console_log, emit, ret. cbn. now inversion 1.
  - intros H. apply downloadFile_files in H as [->|[data W]]; [trivial|].
    now apply lookup_write_preserved with (1 := W).
Qed.

Lemma downloadFileIfNotPresent_success (url : string) (w w' : World)
      (r : DownloadResult) :
  downloadFileIfNotPresent env buildPaths url w = (Return r, w') ->
  success r = true ->
  lookup (segments (expectedFilePath buildPaths url)) (files w') <> None.
Proof.
  unfold downloadFileIfNotPresent, bind at 1, existsSync.
  destruct (lookup (segments (expectedFilePath buildPaths url)) (files w)) eqn:L; cbn [isSome].
  - unfold bind, console_log, emit, ret. cbn. inversion 1; subst. cbn.
    now rewrite L.
  - intros H S. destruct (downloadFile_success _ _ _ _ _ H S)
      as (response & b & _ & _ & _ & _ & ->). discriminate.
Qed.

Lemma acquireAll_returns (urls : list string) (w : World) :
  exists rs w', acquireAll env buildPaths urls w = (Return rs, w').
Proof.
  revert w. induction urls as [|u urls IH]; intros w; cbn [acquireAll].
  - unfold ret. eauto.
  - unfold bind.
    destruct (downloadFileIfNotPresent_returns u w) as (r & w1 & ->).
    destruct (IH w1) as (rs & w2 & ->). unfold ret. eauto.
Qed.

Lemma acquireAll_cons (u : string) (urls : list string) (w w1 w2 : World)
      (r : DownloadResult) (rs : list DownloadResult) :
  downloadFileIfNotPresent env buildPaths u w = (Return r, w1) ->
  acquireAll env buildPaths urls w1 = (Return rs, w2) ->
  acquireAll env buildPaths (u :: urls) w = (Return (r :: rs), w2).
Proof.
  intros H1 H2. cbn [acquireAll]. unfold bind. now rewrite H1, H2.
Qed.

Lemma acquireAll_cons_inv (u : string) (urls : list string) (w w2 : World)
      (rs : list DownloadResult) :
  acquireAll env buildPaths (u :: urls) w = (Return rs, w2) ->
  exists r rs' w1,
    rs = r :: rs' /\
    downloadFileIfNotPresent env buildPaths u w = (Return r, w1) /\
    acquireAll env buildPaths urls w1 = (Return rs', w2).
Proof.
  cbn [acquireAll]. unfold bind.
  destruct (downloadFileIfNotPresent_returns u w) as (r & w1 & E1).
  destruct (acquireAll_returns urls w1) as (rs' & w' & E2).
  rewrite E1, E2. unfold ret. inversion 1; subst. exists r, rs', w1. auto.
Qed.

Lemma acquireAll_preserves (urls : list string) (w w' : World)
      (rs : list DownloadResult) (q : list string) :
  acquireAll env buildPaths urls w = (Return rs, w') ->
  lookup q (files w) <> None -> lookup q (files w') <> None.
Proof.
  revert w rs. induction urls as [|u urls IH]; intros w rs H.
  - cbn in H. inversion H; subst. trivial.
  - apply acquireAll_cons_inv in H as (r & rs' & w1 & -> & H1 & H2).
    intros L. apply (IH _ _ H2).
    now apply (downloadFileIfNotPresent_preserves _ _ _ _ _ H1).
Qed.

(** After a run in which every acquisition succeeded, every destination
    exists. *)
Lemma acquireAll_success (urls : list string) (w w' : World)
      (rs : list DownloadResult) :
  acquireAll env buildPaths urls w = (Return rs, w') ->
  Forall (fun r => success r = true) rs ->
  Forall (fun u => lookup (segments (expectedFilePath buildPaths u)) (files w') <> None) urls.
Proof.
  revert w rs. induction urls as [|u urls IH]; intros w rs H F; [constructor|].
  apply acquireAll_cons_inv in H as (r & rs' & w1 & -> & H1 & H2).
  inversion F; subst. constructor.
  - apply (acquireAll_preserves _ _ _ _ _ H2).
    now apply (downloadFileIfNotPresent_success _ _ _ _ H1).
  - now apply (IH _ _ H2).
Qed.

(** A run over destinations that all exist makes no request, changes no
    file, and reports a cache hit for every URL. *)
Lemma acquireAll_hits (urls : list string) (w : World) :
  Forall (fun u => lookup (segments (expectedFilePath buildPaths u)) (files w) <> None) urls ->
  exists w',
    acquireAll env buildPaths urls w = (Return (map (fun u => mkDownloadResult u (expectedFilePath buildPaths u) true None) urls), w') /\
    files w' = files w /\ requests (trace w') = requests (trace w).
Proof.
  revert w. induction urls as [|u urls IH]; intros w F.
  - exists w. now cbn.
  - inversion F as [|? ? Hu Hrest]; subst.
    pose proof (downloadFileIfNotPresent_hit u w Hu) as H1.
    destruct (IH (mkWorld (files w)
       (trace w ++ [ConsoleLog ("⏭️  Skipping " ++ u ++ " - " ++ expectedFilePath buildPaths u
                                  ++ " already exists")]))) as (w' & H2 & Hf & Hr).
    { exact Hrest. }
    exists w'. split; [|split].
    + cbn [map]. now apply acquireAll_cons with (1 := H1).
    + exact Hf.
    + rewrite Hr. cbn. rewrite requests_app. cbn. lia.
Qed.

End FetchFacts.

Section FetchClaims.

Import FetchPythonPackageResources.

Variable env : Env.
Variable buildPaths : BuildPaths.

Lemma downloadFile_fields (url targetPath : string) (w w' : World)
      (r : DownloadResult) :
  downloadFile env url targetPath w = (Return r, w') ->
  FetchPythonPackageResources.url r = url /\ filePath r = targetPath.
Proof.
  unfold downloadFile, tryCatch, bind, ret, throw, console_log, console_error,
    emit, fetch, pipeline; cbn [files trace].
  destruct (net env url _) as [response|reason]; cbn; [|now inversion 1].
  destruct (ok response); cbn; [|now inversion 1].
  destruct (body response) as [b|]; cbn; [|now inversion 1].
  destruct (write _ _ _); [|now inversion 1].
  destruct (failure b); now inversion 1.
Qed.

(** C8. The destination filename of an artifact is the final path segment of
    its URL: it holds no '/', the URL ends with '/' followed by it (and is
    the whole URL when the URL holds no '/'); the destination path is the
    resources directory, '/', and that filename, and it is the [filePath] of
    the outcome that the acquisition returns. *)
Theorem destination_is_final_segment (url : string) (w : World) :
  occurs "/" (getBaseFileName url) = false /\
  (occurs "/" url = true ->
   exists before, url = before ++ "/" ++ getBaseFileName url) /\
  (occurs "/" url = false -> getBaseFileName url = url) /\
  expectedFilePath buildPaths url
    = resourcesDir buildPaths ++ "/" ++ getBaseFileName url /\
  exists r w',
    downloadFileIfNotPresent env buildPaths url w = (Return r, w') /\
    FetchPythonPackageResources.url r = url /\
    filePath r = expectedFilePath buildPaths url.
Proof.
  split; [|split; [|split; [|split]]].
  - unfold getBaseFileName. cbv zeta.
    pose proof (split_pieces "/" url) as F.
    pose proof (split_not_nil "/" url) as N.
    rewrite Forall_forall in F. apply F. apply nth_In.
    destruct (split "/" url); [contradiction|simpl; lia].
  - intros H. apply (split_last_decompose "/") in H as [before H].
    exists before. exact H.
  - intros H. unfold getBaseFileName. cbv zeta.
    now rewrite (split_without _ _ H).
  - reflexivity.
  - unfold downloadFileIfNotPresent, bind at 1, existsSync.
    destruct (isSome _).
    + unfold bind, console_log, emit, ret. cbn. eauto.
    + destruct (downloadFile_returns env url (expectedFilePath buildPaths url) w)
        as (r & w' & E).
      exists r, w'. split; [exact E|]. now apply downloadFile_fields in E.
Qed.

(** C1. When the destination of a URL already exists, the acquisition
    returns the success outcome at once: no request is made and no file
    changes.  Hence, after a run in which every acquisition succeeded, a
    second run over the same URLs, from the files that the first one left,
    makes no request, changes no file, and reports a success for every URL. *)
Theorem cache_hit_is_idempotent :
  (forall (url : string) (w : World),
      existsSync (expectedFilePath buildPaths url) w = (Return true, w) ->
      exists w',
        downloadFileIfNotPresent env buildPaths url w
          = (Return (mkDownloadResult url (expectedFilePath buildPaths url) true None),
             w') /\
        files w' = files w /\
        requests (trace w') = requests (trace w)) /\
  (forall (urls : list string) (w w1 : World) (rs : list DownloadResult),
      acquireAll env buildPaths urls w = (Return rs, w1) ->
      Forall (fun r => success r = true) rs ->
      forall w2 : World,
        files w2 = files w1 ->
        exists rs' w3,
          acquireAll env buildPaths urls w2 = (Return rs', w3) /\
          map FetchPythonPackageResources.url rs' = urls /\
          Forall (fun r => success r = true) rs' /\
          files w3 = files w2 /\
          requests (trace w3) = requests (trace w2)).
Proof.
  split.
  - intros url w H. unfold existsSync in H.
    assert (L : lookup (segments (expectedFilePath buildPaths url)) (files w) <> None).
    { destruct (lookup _ _); [discriminate|]. cbn in H. discriminate. }
    rewrite (downloadFileIfNotPresent_hit env buildPaths url w L).
    eexists. split; [reflexivity|]. cbn. split; [reflexivity|].
    rewrite requests_app. cbn. lia.
  - intros urls w w1 rs H S w2 Hw.
    pose proof (acquireAll_success env buildPaths _ _ _ _ H S) as F.
    rewrite <- Hw in F.
    destruct (acquireAll_hits env buildPaths urls w2 F) as (w3 & E & Hf & Hr).
    eexists. exists w3. split; [exact E|]. repeat split; trivial.
    + rewrite map_map. cbn. apply map_id.
    + apply Forall_forall. intros r Hin. apply in_map_iff in Hin as (u & <- & _).
      reflexivity.
Qed.

(** C6. A request that completes with a non-success status makes
    [downloadFile] return an outcome with [success = false] and the error
    "HTTP <status>: <statusText>", and leaves the files as they were.  In a
    batch, the failure is collected and the run goes on: the outcomes of a
    batch are the outcomes of its acquisitions, each run in the world that
    the ones before it left; and an acquisition whose own request meets a
    successful response with a body that streams to the end into a
    destination that can be written succeeds. *)
Theorem failure_is_collected :
  (forall (url targetPath : string) (w : World) (response : Response),
      net env url (requests (trace w)) = Resolved response ->
      ok response = false ->
      exists w',
        downloadFile env url targetPath w
          = (Return (mkDownloadResult url targetPath false
                       (Some ("HTTP " ++ numberToString (status response)
                                ++ ": " ++ statusText response))), w') /\
        files w' = files w) /\
  (forall (before after : list string) (url : string) (w : World),
      exists rs1 w1 r w2 rs2 w3,
        acquireAll env buildPaths before w = (Return rs1, w1) /\
        downloadFileIfNotPresent env buildPaths url w1 = (Return r, w2) /\
        acquireAll env buildPaths after w2 = (Return rs2, w3) /\
        acquireAll env buildPaths (before ++ url :: after) w
          = (Return (rs1 ++ r :: rs2)%list, w3)) /\
  (forall (url targetPath : string) (w : World) (response : Response)
          (b : Body) (root : node),
      net env url (requests (trace w)) = Resolved response ->
      ok response = true ->
      body response = Some b ->
      failure b = None ->
      write (segments targetPath) (delivered b) (files w) = Some root ->
      exists w',
        downloadFile env url targetPath w
          = (Return (mkDownloadResult url targetPath true None), w') /\
        files w' = root).
Proof.
  split; [|split].
  - intros url targetPath w response Hnet Hok.
    unfold downloadFile, tryCatch, bind, ret, throw, console_log,
      console_error, emit, fetch; cbn [files trace].
    rewrite requests_app, Nat.add_0_r, Hnet. cbn. rewrite Hok. cbn.
    eexists. split; reflexivity.
  - intros before after url. induction before as [|u before IH]; intros w.
    + destruct (downloadFileIfNotPresent_returns env buildPaths url w)
        as (r & w2 & E1).
      destruct (acquireAll_returns env buildPaths after w2) as (rs2 & w3 & E2).
      exists [], w, r, w2, rs2, w3. repeat split; trivial.
      cbn [app]. now apply acquireAll_cons with (1 := E1).
    + destruct (downloadFileIfNotPresent_returns env buildPaths u w)
        as (r0 & w0 & E0).
      destruct (IH w0) as (rs1 & w1 & r & w2 & rs2 & w3 & A & B & C & D).
      exists (r0 :: rs1), w1, r, w2, rs2, w3. repeat split; trivial.
      * now apply acquireAll_cons with (1 := E0).
      * cbn [app]. now apply acquireAll_cons with (1 := E0).
  - intros url targetPath w response b root Hnet Hok Hb Hf W.
    unfold downloadFile, tryCatch, bind, ret, throw, console_log,
      console_error, emit, fetch, pipeline; cbn [files trace].
    rewrite requests_app, Nat.add_0_r, Hnet. cbn. rewrite Hok, Hb. cbn.
    rewrite W, Hf. cbn. eexists. split; reflexivity.
Qed.


End FetchClaims.

(** * The path-configuration file *)

Section PthFacts.

Import PreparePythonEnv.

Lemma stripPrefix_spec (p s rest : string) :
  stripPrefix p s = Some rest <-> s = p ++ rest.
Proof.
  revert s. induction p as [|a p IH]; intros s; simpl.
  - split; [now inversion 1|now intros ->].
  - destruct s as [|b s].
    + split; discriminate.
    + destruct (Ascii.eqb_spec a b) as [->|Hne].
      * rewrite IH. split; [now intros ->|now inversion 1].
      * split; [discriminate|]. inversion 1. congruence.
Qed.

Lemma spanDigits_spec (s digits tail : string) :
  spanDigits s = (digits, tail) ->
  s = digits ++ tail /\ allDigits digits = true.
Proof.
  revert digits tail. induction s as [|c s IH]; simpl; intros digits tail.
  - inversion 1. now split.
  - destruct (isDigit c) eqn:D.
    + destruct (spanDigits s) as [d t]. inversion 1; subst.
      destruct (IH d tail eq_refl) as [-> Hd]. simpl. now rewrite D, Hd.
    + inversion 1. now split.
Qed.

Lemma spanDigits_app (digits tail : string) :
  allDigits digits = true ->
  (forall c rest, tail = String c rest -> isDigit c = false) ->
  spanDigits (digits ++ tail) = (digits, tail).
Proof.
  intros Hd Ht. induction digits as [|c d IH]; simpl in *.
  - destruct tail as [|c rest]; [reflexivity|].
    simpl. now rewrite (Ht c rest eq_refl).
  - apply andb_true_iff in Hd as [Hc Hd]. now rewrite Hc, (IH Hd).
Qed.

Lemma append_assoc (a b c : string) : a ++ b ++ c = (a ++ b) ++ c.
Proof.
  induction a as [|x a IH]; simpl; [reflexivity|now rewrite IH].
Qed.

Lemma append_assoc3 (a b c rest : string) :
  a ++ b ++ c ++ rest = (a ++ b ++ c) ++ rest.
Proof.
  now rewrite <- !append_assoc.
Qed.

(** What the pattern matches: "python", a non-empty run of digits, "._pth". *)
Lemma pthFilePattern_spec (file version : string) :
  pthFilePattern file = Some version <->
  file = "python" ++ version ++ "._pth" /\
  version <> "" /\ allDigits version = true.
Proof.
  unfold pthFilePattern. split.
  - destruct (stripPrefix "python" file) as [rest|] eqn:P; [|discriminate].
    apply stripPrefix_spec in P. subst file.
    destruct (spanDigits rest) as [digits tail] eqn:S.
    apply spanDigits_spec in S as [-> Hd].
    destruct (String.eqb_spec digits ""); [discriminate|].
    destruct (String.eqb_spec tail "._pth"); [|discriminate].
    inversion 1; subst. auto.
  - intros (-> & Hne & Hd).
    assert (P : stripPrefix "python" ("python" ++ version ++ "._pth")
                = Some (version ++ "._pth")) by now apply stripPrefix_spec.
    rewrite P, spanDigits_app; trivial.
    + apply String.eqb_neq in Hne. now rewrite Hne.
    + now inversion 1.
Qed.

Lemma allDigits_occurs (c : ascii) (s : string) :
  isDigit c = false -> allDigits s = true -> occurs c s = false.
Proof.
  intros Hc. induction s as [|a s IH]; simpl; [reflexivity|].
  intros H. apply andb_true_iff in H as [Ha Hs].
  rewrite (IH Hs), orb_false_r.
  destruct (Ascii.eqb_spec a c); [congruence|reflexivity].
Qed.

Lemma pthFilePattern_name (file version : string) :
  pthFilePattern file = Some version ->
  file <> "" /\ occurs "/" file = false.
Proof.
  intros H. apply pthFilePattern_spec in H as (-> & _ & Hd). split.
  - discriminate.
  - rewrite occurs_app, occurs_app.
    now rewrite (allDigits_occurs "/" version eq_refl Hd).
Qed.

(** The loop stops at the first name that matches. *)
Lemma findPthFile_first (skipped rest : list string) (file version : string) :
  Forall (fun f => pthFilePattern f = None) skipped ->
  pthFilePattern file = Some version ->
  findPthFile (skipped ++ file :: rest)%list = (Some version, Some file).
Proof.
  intros F H. induction F as [|f skipped Hf _ IH]; simpl.
  - now rewrite H.
  - now rewrite Hf.
Qed.

Lemma findPthFile_none (files : list string) :
  Forall (fun f => pthFilePattern f = None) files ->
  findPthFile files = (None, None).
Proof.
  induction 1 as [|f files Hf _ IH]; simpl; [reflexivity|now rewrite Hf].
Qed.

(** What the loop leaves in its two variables. *)
Lemma findPthFile_found (files : list string) (version name : string) :
  findPthFile files = (Some version, Some name) ->
  exists skipped rest,
    files = (skipped ++ name :: rest)%list /\
    Forall (fun f => pthFilePattern f = None) skipped /\
    pthFilePattern name = Some version.
Proof.
  induction files as [|f files IH]; simpl; [discriminate|].
  destruct (pthFilePattern f) as [v|] eqn:P.
  - inversion 1; subst. exists [], files. repeat split; trivial.
  - intros H. destruct (IH H) as (skipped & rest & -> & F & Hn).
    exists (f :: skipped), rest. repeat split; trivial. now constructor.
Qed.

(** The content written has five lines, each ended by a line feed. *)
Lemma pthContent_lines (version : string) :
  allDigits version = true ->
  split (ascii_of_nat 10) (pthContent version) =
    [ "python" ++ version ++ ".zip";
      ".";
      "";
      "# Uncomment to run site.main() automatically";
      "import site";
      "" ].
Proof.
  intros Hd. unfold pthContent, LF.
  rewrite (append_assoc3 "python" version ".zip").
  etransitivity; [apply split_app|].
  rewrite split_without; [reflexivity|].
  rewrite !occurs_app.
  now rewrite (allDigits_occurs (ascii_of_nat 10) version eq_refl Hd).
Qed.

(** A name joined to a directory is one more segment. *)
Lemma segments_join (dir name : string) :
  name <> "" -> occurs "/" name = false ->
  segments (join dir name) = (segments dir ++ [name])%list.
Proof.
  intros Hne Hs. unfold join, segments.
  assert (Hn : filter (fun s => negb (s =? "")) (split "/" name) = [name]).
  { rewrite (split_without _ _ Hs). simpl.
    apply String.eqb_neq in Hne. now rewrite Hne. }
  destruct (String.eqb_spec dir "") as [->|Hd].
  - now rewrite Hn.
  - change (dir ++ "/" ++ name) with (dir ++ String "/" name).
    now rewrite split_app, filter_app, Hn.
Qed.

End PthFacts.

Lemma lookup_app (p q : list string) (n : node) :
  lookup (p ++ q)%list n =
    match lookup p n with
    | Some m => lookup q m
    | None => None
    end.
Proof.
  revert n. induction p as [|k p IH]; intros n; simpl; [reflexivity|].
  destruct n as [c|es]; [reflexivity|].
  destruct (assoc k es); [apply IH|reflexivity].
Qed.

(** A regular file can be written over. *)
Lemma write_over_file (p : list string) (data old : string) (n : node) :
  lookup p n = Some (File old) -> p <> [] ->
  exists n', write p data n = Some n'.
Proof.
  revert n. induction p as [|k p IH]; intros n H Hp; [contradiction|].
  simpl in *. destruct n as [c|es]; [discriminate|].
  destruct (assoc k es) as [child|]; [|discriminate].
  destruct p as [|k2 p].
  - simpl in H. inversion H; subst. eauto.
  - destruct (IH child H ltac:(discriminate)) as [child' ->]. eauto.
Qed.

Lemma readFile_write_same (path data : string) (n n' : node) :
  write (segments path) data n = Some n' -> readFile path n' = Some data.
Proof.
  intros W. unfold readFile. now rewrite (lookup_write_same _ _ _ _ W).
Qed.

Lemma readFile_write_other (path other data : string) (n n' : node) :
  write (segments path) data n = Some n' ->
  segments other <> segments path ->
  readFile other n' = readFile other n.
Proof.
  intros W Hne. unfold readFile.
  pose proof (lookup_write_other _ _ _ _ _ W Hne) as H.
  destruct (lookup (segments other) n') as [[c|es]|].
  - now rewrite (proj1 (H c) eq_refl).
  - destruct (lookup (segments other) n) as [[c|es']|]; trivial.
    now pose proof (proj2 (H c) eq_refl).
  - destruct (lookup (segments other) n) as [[c|es']|]; trivial.
    now pose proof (proj2 (H c) eq_refl).
Qed.

(** * The staging script *)

Section PrepareFacts.

Import PreparePythonEnv.

Variable env : Env.
Variable buildPaths : BuildPaths.

Lemma filter_isWork_log (t : list Event) (message : string) :
  filter isWork (t ++ [ConsoleLog message]) = filter isWork t.
Proof.
  rewrite filter_app. cbn. apply app_nil_r.
Qed.

Lemma filter_isWork_error (t : list Event) (message : string) :
  filter isWork (t ++ [ConsoleError message]) = filter isWork t.
Proof.
  rewrite filter_app. cbn. apply app_nil_r.
Qed.

(** The run of [createPythonEnvFromEmbeddableZip] when the archive is
    extracted and the listing holds a name that matches. *)
Lemma createPythonEnv_rewrites (zipFile : string) (w : World)
      (extracted rewritten : node) (names : list string)
      (version name : string) :
  admZip env zipFile (pythonEnvDir buildPaths) (files w) = (extracted, None) ->
  listing (pythonEnvDir buildPaths) extracted = Some names ->
  findPthFile names = (Some version, Some name) ->
  write (segments (join (pythonEnvDir buildPaths) name)) (pthContent version) extracted
    = Some rewritten ->
  exists w',
    createPythonEnvFromEmbeddableZip env buildPaths zipFile w = (Return tt, w') /\
    files w' = rewritten /\
    filter isWork (trace w')
      = (filter isWork (trace w) ++ [Extract zipFile (pythonEnvDir buildPaths)])%list.
Proof.
  intros Hzip Hls Hfind Hw.
  destruct (findPthFile_found _ _ _ Hfind) as (skipped & rest & _ & _ & Hm).
  assert (Hv : version <> "") by (apply pthFilePattern_spec in Hm; tauto).
  assert (Hn : name <> "") by (apply pthFilePattern_name in Hm; tauto).
  apply String.eqb_neq in Hv, Hn.
  unfold createPythonEnvFromEmbeddableZip, tryCatch, bind, ret, console_log,
    console_error, emit, extractAllTo, readdirSync, writeFileSync;
    cbn [files trace].
  rewrite Hzip. cbn [files trace].
  rewrite Hls, Hfind. cbn [truthy]. rewrite Hv, Hn. cbn [negb orb files trace].
  rewrite Hw. eexists. split; [reflexivity|]. cbn [files trace].
  split; [reflexivity|].
  rewrite !filter_isWork_log. rewrite filter_app. cbn.
  now rewrite filter_isWork_log.
Qed.

(** The run when the archive is extracted and no listed name matches. *)
Lemma createPythonEnv_aborts (zipFile : string) (w : World)
      (extracted : node) (names : list string) :
  admZip env zipFile (pythonEnvDir buildPaths) (files w) = (extracted, None) ->
  listing (pythonEnvDir buildPaths) extracted = Some names ->
  findPthFile names = (None, None) ->
  exists w',
    createPythonEnvFromEmbeddableZip env buildPaths zipFile w = (Exit 1%Z, w') /\
    files w' = extracted /\
    filter isWork (trace w')
      = (filter isWork (trace w) ++ [Extract zipFile (pythonEnvDir buildPaths)])%list.
Proof.
  intros Hzip Hls Hfind.
  unfold createPythonEnvFromEmbeddableZip, tryCatch, bind, ret, console_log,
    console_error, emit, extractAllTo, readdirSync, process_exit;
    cbn [files trace].
  rewrite Hzip. cbn [files trace].
  rewrite Hls, Hfind. cbn [files trace].
  eexists. split; [reflexivity|]. cbn [files trace]. split; [reflexivity|].
  rewrite filter_isWork_error, !filter_isWork_log, filter_app. cbn.
  now rewrite filter_isWork_log.
Qed.

End PrepareFacts.

Section PrepareClaims.

Import PreparePythonEnv.

Variable env : Env.
Variable buildPaths : BuildPaths.

(** C3. When the loop detects the version token [version] in the name of a
    regular file of the extracted tree, that name is "python", the digits
    [version], "._pth"; the function returns, and the file then holds
    exactly five lines, each ended by a line feed: "python<version>.zip",
    ".", an empty line, a comment, and "import site"; no other file changes.
    In particular a listing whose first matching name is "python312._pth"
    gives the token "312", and the first line written is "python312.zip". *)
Theorem path_config_is_rewritten :
  (forall (zipFile : string) (w : World) (extracted : node)
          (names : list string) (version name old : string),
      admZip env zipFile (pythonEnvDir buildPaths) (files w) = (extracted, None) ->
      listing (pythonEnvDir buildPaths) extracted = Some names ->
      findPthFile names = (Some version, Some name) ->
      readFile (join (pythonEnvDir buildPaths) name) extracted = Some old ->
      name = "python" ++ version ++ "._pth" /\
      version <> "" /\ allDigits version = true /\
      split (ascii_of_nat 10) (pthContent version) =
        [ "python" ++ version ++ ".zip";
          ".";
          "";
          "# Uncomment to run site.main() automatically";
          "import site";
          "" ] /\
      exists w',
        createPythonEnvFromEmbeddableZip env buildPaths zipFile w
          = (Return tt, w') /\
        readFile (join (pythonEnvDir buildPaths) name) (files w')
          = Some (pthContent version) /\
        forall other,
          segments other <> segments (join (pythonEnvDir buildPaths) name) ->
          readFile other (files w') = readFile other extracted) /\
  (forall skipped rest : list string,
      Forall (fun f => pthFilePattern f = None) skipped ->
      findPthFile (skipped ++ "python312._pth" :: rest)%list
        = (Some "312", Some "python312._pth") /\
      nth 0 (split (ascii_of_nat 10) (pthContent "312")) "" = "python312.zip").
Proof.
  split.
  - intros zipFile w extracted names version name old Hzip Hls Hfind Hold.
    destruct (findPthFile_found _ _ _ Hfind) as (skipped & rest & _ & _ & Hm).
    pose proof (pthFilePattern_name _ _ Hm) as [Hn Hs].
    apply pthFilePattern_spec in Hm as (Hname & Hv & Hd).
    repeat (split; [assumption|]).
    split; [now apply pthContent_lines|].
    assert (L : exists n', write (segments (join (pythonEnvDir buildPaths) name))
                             (pthContent version) extracted = Some n').
    { unfold readFile in Hold.
      destruct (lookup (segments (join (pythonEnvDir buildPaths) name)) extracted)
        as [[c|es]|] eqn:L; try discriminate.
      apply write_over_file with (1 := L).
      rewrite (segments_join _ _ Hn Hs). now destruct (segments (pythonEnvDir buildPaths)). }
    destruct L as [rewritten W].
    destruct (createPythonEnv_rewrites env buildPaths _ _ _ _ _ _ _
                Hzip Hls Hfind W) as (w' & E & Hf & _).
    exists w'. split; [exact E|]. rewrite Hf. split.
    + now apply readFile_write_same with (1 := W).
    + intros other Hne. now apply readFile_write_other with (1 := W).
  - intros skipped rest F. split.
    + now apply findPthFile_first.
    + reflexivity.
Qed.

(** C9. When several listed names match, the first in listing order is the
    one detected: the version token is its digit run, the file rewritten is
    that one, and every other matching file keeps its content. *)
Theorem first_match_wins
        (zipFile : string) (w : World) (extracted : node)
        (skipped rest : list string) (version name old : string) :
  admZip env zipFile (pythonEnvDir buildPaths) (files w) = (extracted, None) ->
  listing (pythonEnvDir buildPaths) extracted = Some (skipped ++ name :: rest)%list ->
  Forall (fun f => pthFilePattern f = None) skipped ->
  pthFilePattern name = Some version ->
  readFile (join (pythonEnvDir buildPaths) name) extracted = Some old ->
  findPthFile (skipped ++ name :: rest)%list = (Some version, Some name) /\
  exists w',
    createPythonEnvFromEmbeddableZip env buildPaths zipFile w = (Return tt, w') /\
    readFile (join (pythonEnvDir buildPaths) name) (files w') = Some (pthContent version) /\
    forall other version',
      pthFilePattern other = Some version' ->
      other <> name ->
      readFile (join (pythonEnvDir buildPaths) other) (files w')
        = readFile (join (pythonEnvDir buildPaths) other) extracted.
Proof.
  intros Hzip Hls F Hm Hold.
  pose proof (findPthFile_first skipped rest name version F Hm) as Hfind.
  split; [exact Hfind|].
  pose proof (pthFilePattern_name _ _ Hm) as [Hn Hs].
  assert (L : exists n', write (segments (join (pythonEnvDir buildPaths) name))
                           (pthContent version) extracted = Some n').
  { unfold readFile in Hold.
    destruct (lookup (segments (join (pythonEnvDir buildPaths) name)) extracted)
      as [[c|es]|] eqn:L; try discriminate.
    apply write_over_file with (1 := L).
    rewrite (segments_join _ _ Hn Hs). now destruct (segments (pythonEnvDir buildPaths)). }
  destruct L as [rewritten W].
  destruct (createPythonEnv_rewrites env buildPaths _ _ _ _ _ _ _
              Hzip Hls Hfind W) as (w' & E & Hf & _).
  exists w'. split; [exact E|]. rewrite Hf. split.
  - now apply readFile_write_same with (1 := W).
  - intros other version' Hm' Hne.
    apply readFile_write_other with (1 := W).
    pose proof (pthFilePattern_name _ _ Hm') as [Hn' Hs'].
    rewrite (segments_join _ _ Hn Hs), (segments_join _ _ Hn' Hs').
    intros H. apply app_inv_head in H. congruence.
Qed.

(** C5. When the archive is extracted and no listed name of the staging
    directory matches the pattern, the function ends the process with exit
    status 1: the files stay as the extraction left them, the extraction is
    the only work done, and the packaging that follows it does not run. *)
Theorem no_match_is_fatal
        (zipFile : string) (w : World) (extracted : node)
        (names : list string) :
  admZip env zipFile (pythonEnvDir buildPaths) (files w) = (extracted, None) ->
  listing (pythonEnvDir buildPaths) extracted = Some names ->
  Forall (fun f => pthFilePattern f = None) names ->
  exists w',
    createPythonEnvFromEmbeddableZip env buildPaths zipFile w = (Exit 1%Z, w') /\
    (1 <> 0)%Z /\
    files w' = extracted /\
    filter isWork (trace w')
      = (filter isWork (trace w) ++ [Extract zipFile (pythonEnvDir buildPaths)])%list /\
    (createPythonEnvFromEmbeddableZip env buildPaths zipFile ;;
     compressPythonEnvironment env buildPaths) w = (Exit 1%Z, w').
Proof.
  intros Hzip Hls F.
  destruct (createPythonEnv_aborts env buildPaths _ _ _ _ Hzip Hls
              (findPthFile_none _ F)) as (w' & E & Hf & Ht).
  exists w'. repeat split; trivial; [lia|].
  unfold bind at 1. now rewrite E.
Qed.

(** C4. When the reset of the staging directory completes, the directory
    exists and is empty: it lists no name, and nothing exists below it,
    whatever was there before.  And the reset does complete when something
    exists at the path of the staging directory, the root apart. *)
Theorem reset_leaves_empty_directory :
  (forall w w' : World,
      preparePythonEnvDir buildPaths w = (Return tt, w') ->
      lookup (segments (pythonEnvDir buildPaths)) (files w') = Some (Dir []) /\
      listing (pythonEnvDir buildPaths) (files w') = Some [] /\
      (forall below, below <> [] ->
         lookup (segments (pythonEnvDir buildPaths) ++ below)%list (files w') = None) /\
      (forall name, name <> "" -> occurs "/" name = false ->
         readFile (join (pythonEnvDir buildPaths) name) (files w') = None)) /\
  (forall w : World,
      segments (pythonEnvDir buildPaths) <> [] ->
      lookup (segments (pythonEnvDir buildPaths)) (files w) <> None ->
      exists w', preparePythonEnvDir buildPaths w = (Return tt, w')).
Proof.
  split.
  - intros w w' H.
    assert (L : lookup (segments (pythonEnvDir buildPaths)) (files w') = Some (Dir [])).
    { revert H.
      unfold preparePythonEnvDir, bind, ret, existsSync, console_log, emit,
        rmSync_recursive, mkdirSync_recursive; cbn [files trace].
  
      destruct (lookup (segments (pythonEnvDir buildPaths)) (files w)) eqn:L; cbn [isSome].
      - destruct (remove _ _) as [cleared|] eqn:R; [|discriminate].
        cbn [files trace]. apply lookup_remove_same in R.
        destruct (mkdirp _ _) as [made|] eqn:Mk; [|discriminate].
        inversion 1; subst. cbn. now apply lookup_mkdirp_fresh with (2 := Mk).
      - destruct (mkdirp _ _) as [made|] eqn:Mk; [|discriminate].
        inversion 1; subst. cbn. now apply lookup_mkdirp_fresh with (2 := Mk). }
    assert (B : forall below, below <> [] ->
       lookup (segments (pythonEnvDir buildPaths) ++ below)%list (files w') = None).
    { intros below Hb. rewrite lookup_app, L. now destruct below. }
    split; [exact L|]. split; [unfold listing; now rewrite L|].
    split; [exact B|].
    intros name Hn Hs. unfold readFile.
    rewrite (segments_join _ _ Hn Hs), B; [reflexivity|discriminate].
  - intros w Hp Hl.
    unfold preparePythonEnvDir, bind, ret, existsSync, console_log, emit,
      rmSync_recursive, mkdirSync_recursive; cbn [files trace].
  
    destruct (lookup (segments (pythonEnvDir buildPaths)) (files w)) eqn:L;
      [|contradiction].
    cbn [isSome].
    destruct (remove (segments (pythonEnvDir buildPaths)) (files w)) as [cleared|] eqn:R.
    + cbn [files trace].
      destruct (mkdirp_after_remove _ _ _ R) as [made ->]. eauto.
    + exfalso. apply (remove_present _ (files w) Hp); [congruence|exact R].
Qed.

(** C7. The packaging removes what exists at the target archive path before
    it runs the compressor: the compressor starts on a tree with nothing at
    that path (the archive path being a path below the root).  When the
    compressor ends with a status other than 0, the packaging ends the
    process with exit status 1. *)
Theorem stale_archive_is_removed (w : World) :
  let targetArchive := pythonEnvArchive (resourceFiles buildPaths) in
  segments targetArchive <> [] ->
  exists (cleared result : node) (exitStatus : option Z) (outcome : Outcome unit)
         (w' : World),
    (lookup (segments targetArchive) (files w) = None -> cleared = files w) /\
    (lookup (segments targetArchive) (files w) <> None ->
     remove (segments targetArchive) (files w) = Some cleared) /\
    lookup (segments targetArchive) cleared = None /\
    childProcess env (sevenZipExe (resourceFiles buildPaths))
      ["a"; targetArchive; join (pythonEnvDir buildPaths) "*"]
      (buildDir buildPaths) cleared = (result, exitStatus) /\
    compressPythonEnvironment env buildPaths w = (outcome, w') /\
    files w' = result /\
    (exitStatus <> Some 0%Z -> outcome = Exit 1%Z /\ (1 <> 0)%Z) /\
    (exitStatus = Some 0%Z -> outcome = Return tt).
Proof.
  intros targetArchive Hp.
  assert (Hc : exists cleared,
             (lookup (segments targetArchive) (files w) = None ->
              cleared = files w) /\
             (lookup (segments targetArchive) (files w) <> None ->
              remove (segments targetArchive) (files w) = Some cleared) /\
             lookup (segments targetArchive) cleared = None).
  { destruct (lookup (segments targetArchive) (files w)) as [n|] eqn:L.
    - destruct (remove (segments targetArchive) (files w)) as [cleared|] eqn:R.
      + exists cleared. repeat split; [discriminate|].
        now apply lookup_remove_same in R.
      + exfalso. apply (remove_present _ (files w) Hp); [congruence|exact R].
    - exists (files w). repeat split; [congruence|assumption]. }
  destruct Hc as (cleared & Habsent & Hpresent & Hcleared).
  destruct (childProcess env (sevenZipExe (resourceFiles buildPaths))
              ["a"; targetArchive; join (pythonEnvDir buildPaths) "*"]
              (buildDir buildPaths) cleared) as [result exitStatus] eqn:C.
  exists cleared, result, exitStatus.
  unfold compressPythonEnvironment, tryCatch, bind, ret, existsSync,
    console_log, console_error, emit, rmSync_recursive, spawnSync,
    process_exit; cbn [files trace].
  fold targetArchive.
  destruct (lookup (segments targetArchive) (files w)) as [n|] eqn:L;
    cbn [isSome files trace].
  - rewrite (Hpresent ltac:(discriminate)). cbn [files trace]. rewrite C.
    destruct exitStatus as [code|]; cbn [statusIsNotZero].
    + destruct (Z.eqb_spec code 0) as [->|Hne]; cbn [negb files trace];
        eexists; eexists; repeat split; try reflexivity; try congruence; lia.
    + eexists; eexists; repeat split; try reflexivity; try congruence; lia.
  - rewrite <- (Habsent eq_refl), C.
    destruct exitStatus as [code|]; cbn [statusIsNotZero].
    + destruct (Z.eqb_spec code 0) as [->|Hne]; cbn [negb files trace];
        eexists; eexists; repeat split; try reflexivity; try congruence; lia.
    + eexists; eexists; repeat split; try reflexivity; try congruence; lia.
Qed.

End PrepareClaims.

(** * The entry points *)

(** C2, as the scripts have it.  Both entry points only report: each prints
    its four progress messages, in order, and returns; no file changes, no
    request is made, nothing is extracted and no child process is run. *)
Theorem entry_points_only_report (buildPaths : BuildPaths) (w : World) :
  (exists w1,
      FetchPythonPackageResources.main buildPaths w = (Return tt, w1) /\
      files w1 = files w /\
      trace w1
        = (trace w
           ++ [ConsoleLog "🚀 Starting Python package resources fetch...";
               ConsoleLog ("📂 Repository Root: " ++ repoRoot buildPaths);
               ConsoleLog ("📂 Target directory: " ++ resourcesDir buildPaths);
               ConsoleLog " except we don't need to do this"])%list /\
      filter isWork (trace w1) = filter isWork (trace w)) /\
  (exists w2,
      PreparePythonEnv.main buildPaths w = (Return tt, w2) /\
      files w2 = files w /\
      trace w2
        = (trace w
           ++ [ConsoleLog "🚀 Starting Python environment preparation...";
               ConsoleLog ("📂 Repository Root: " ++ repoRoot buildPaths);
               ConsoleLog ("📂 Target directory: " ++ pythonEnvDir buildPaths);
               ConsoleLog " This stuff doesn't make sense on linux/docker"])%list /\
      filter isWork (trace w2) = filter isWork (trace w)).
Proof.
  split; eexists; (split; [reflexivity|]); cbn [files trace];
    (split; [reflexivity|]);
    (split; [now rewrite <- !app_assoc|now rewrite !filter_isWork_log]).
Qed.

(** C2 fails as stated: run on a build tree whose staging directory holds a
    file of an earlier build, the stage entry point leaves that file in
    place, extracts nothing and runs no compressor. *)
Lemma stage_main_skips_the_pipeline :
  ~ (let w' := snd (PreparePythonEnv.main Scenario.paths Scenario.world) in
     readFile "/repo/build/python-env/junk.txt" (files w') = None /\
     (exists zipFile,
         In (Extract zipFile "/repo/build/python-env") (trace w')) /\
     (exists command args cwd, In (Spawn command args cwd) (trace w'))).
Proof.
  intros [H _]. vm_compute in H. discriminate.
Qed.

(** * The claims at work on the build tree of [Scenario] *)

Lemma cache_hit_is_idempotent_witness :
  let urls := [ "https://example.org/dist/python-embed.zip";
                "https://example.org/dist/get-pip.py" ] in
  let first := FetchPythonPackageResources.acquireAll
                 Scenario.env Scenario.paths urls Scenario.world in
  (exists w',
      FetchPythonPackageResources.downloadFileIfNotPresent
        Scenario.env Scenario.paths "https://example.org/dist/python-embed.zip"
        Scenario.world
      = (Return (FetchPythonPackageResources.mkDownloadResult
                   "https://example.org/dist/python-embed.zip"
                   "/repo/build/resources/python-embed.zip" true None), w') /\
      files w' = files Scenario.world /\
      requests (trace w') = requests (trace Scenario.world)) /\
  requests (trace (snd first)) = 1%nat /\
  (exists rs' w3,
      FetchPythonPackageResources.acquireAll
        Scenario.env Scenario.paths urls (snd first) = (Return rs', w3) /\
      map FetchPythonPackageResources.url rs' = urls /\
      Forall (fun r => FetchPythonPackageResources.success r = true) rs' /\
      files w3 = files (snd first) /\
      requests (trace w3) = requests (trace (snd first))).
Proof.
  intros urls first.
  destruct (cache_hit_is_idempotent Scenario.env Scenario.paths) as [H1 H2].
  split; [|split].
  - apply (H1 "https://example.org/dist/python-embed.zip" Scenario.world).
    vm_compute. reflexivity.
  - vm_compute. reflexivity.
  - eapply (H2 urls Scenario.world).
    + vm_compute. reflexivity.
    + repeat constructor.
    + vm_compute. reflexivity.
Defined.

Lemma destination_is_final_segment_witness :
  FetchPythonPackageResources.getBaseFileName
    "https://example.org/dist/python-embed.zip" = "python-embed.zip" /\
  exists before,
    "https://example.org/dist/python-embed.zip"
    = before ++ "/" ++ "python-embed.zip".
Proof.
  split; [reflexivity|].
  destruct (destination_is_final_segment Scenario.env Scenario.paths
              "https://example.org/dist/python-embed.zip" Scenario.world)
    as (_ & H & _).
  apply H. vm_compute. reflexivity.
Defined.

Lemma failure_is_collected_witness :
  exists w',
    FetchPythonPackageResources.downloadFile Scenario.env
      "https://example.org/dist/missing.zip"
      "/repo/build/resources/missing.zip" Scenario.world
    = (Return (FetchPythonPackageResources.mkDownloadResult
                 "https://example.org/dist/missing.zip"
                 "/repo/build/resources/missing.zip" false
                 (Some "HTTP 404: Not Found")), w') /\
    files w' = files Scenario.world.
Proof.
  destruct (failure_is_collected Scenario.env Scenario.paths) as (H & _ & _).
  apply (H "https://example.org/dist/missing.zip"
           "/repo/build/resources/missing.zip" Scenario.world
           (mkResponse 404 "Not Found" (Some (mkBody "" None)))).
  - vm_compute. reflexivity.
  - vm_compute. reflexivity.
Defined.



Lemma path_config_is_rewritten_witness :
  (exists w',
      PreparePythonEnv.createPythonEnvFromEmbeddableZip
        Scenario.env Scenario.paths "/repo/build/resources/python-embed.zip"
        Scenario.staged = (Return tt, w') /\
      readFile "/repo/build/python-env/python312._pth" (files w')
        = Some (PreparePythonEnv.pthContent "312") /\
      readFile "/repo/build/python-env/python.exe" (files w') = Some "MZ") /\
  PreparePythonEnv.findPthFile
    ["python.exe"; "python312._pth"; "python312.zip"]
    = (Some "312", Some "python312._pth").
Proof.
  destruct (path_config_is_rewritten Scenario.env Scenario.paths) as [H1 H2].
  split.
  - edestruct (H1 "/repo/build/resources/python-embed.zip" Scenario.staged)
      as (_ & _ & _ & _ & w' & E & R & O).
    + vm_compute. reflexivity.
    + vm_compute. reflexivity.
    + vm_compute. reflexivity.
    + vm_compute. reflexivity.
    + exists w'. split; [exact E|]. split; [exact R|].
      etransitivity; [apply (O "/repo/build/python-env/python.exe")|].
      * vm_compute. discriminate.
      * vm_compute. reflexivity.
  - apply (H2 ["python.exe"] ["python312.zip"]).
    repeat constructor.
Defined.

Lemma first_match_wins_witness :
  exists w',
    PreparePythonEnv.createPythonEnvFromEmbeddableZip
      Scenario.env Scenario.paths "/repo/build/resources/python-embed.zip"
      Scenario.staged = (Return tt, w') /\
    readFile "/repo/build/python-env/python312._pth" (files w')
      = Some (PreparePythonEnv.pthContent "312") /\
    readFile "/repo/build/python-env/python311._pth" (files w')
      = Some "python311.zip".
Proof.
  edestruct (first_match_wins Scenario.env Scenario.paths
               "/repo/build/resources/python-embed.zip" Scenario.staged
               (fst (Scenario.unzip "/repo/build/resources/python-embed.zip"
                       "/repo/build/python-env" (files Scenario.staged)))
               ["python.exe"] ["python311._pth"; "python312.zip"]
               "312" "python312._pth" "python312.zip")
    as (_ & w' & E & R & O).
  - vm_compute. reflexivity.
  - vm_compute. reflexivity.
  - repeat constructor.
  - vm_compute. reflexivity.
  - vm_compute. reflexivity.
  - exists w'. split; [exact E|]. split; [exact R|].
    etransitivity; [apply (O "python311._pth" "311")|].
    + vm_compute. reflexivity.
    + discriminate.
    + vm_compute. reflexivity.
Defined.

Lemma no_match_is_fatal_witness :
  exists w',
    PreparePythonEnv.createPythonEnvFromEmbeddableZip
      Scenario.env Scenario.paths "/repo/build/resources/other.zip"
      Scenario.staged = (Exit 1%Z, w') /\
    readFile "/repo/build/python-env/README.txt" (files w')
      = Some "nothing here" /\
    filter isWork (trace w')
      = [Extract "/repo/build/resources/other.zip" "/repo/build/python-env"].
Proof.
  edestruct (no_match_is_fatal Scenario.env Scenario.paths
               "/repo/build/resources/other.zip" Scenario.staged)
    as (w' & E & _ & Hf & Ht & _).
  - vm_compute. reflexivity.
  - vm_compute. reflexivity.
  - repeat constructor.
  - exists w'. split; [exact E|]. rewrite Hf. split; [|exact Ht].
    vm_compute. reflexivity.
Defined.

Lemma reset_leaves_empty_directory_witness :
  readFile "/repo/build/python-env/junk.txt" (files Scenario.world)
    = Some "old" /\
  exists w',
    PreparePythonEnv.preparePythonEnvDir Scenario.paths Scenario.world
      = (Return tt, w') /\
    readFile "/repo/build/python-env/junk.txt" (files w') = None /\
    listing "/repo/build/python-env" (files w') = Some [].
Proof.
  split; [reflexivity|].
  destruct (reset_leaves_empty_directory Scenario.paths) as [Hempty Hcompletes].
  destruct (Hcompletes Scenario.world) as [w' E].
  - vm_compute. discriminate.
  - vm_compute. discriminate.
  - exists w'. split; [exact E|].
    destruct (Hempty Scenario.world w' E) as (_ & L & _ & F).
    split; [|exact L]. apply (F "junk.txt"); [discriminate|reflexivity].
Defined.

Lemma stale_archive_is_removed_witness :
  readFile "/repo/build/resources/python-env.7z" (files Scenario.world)
    = Some "stale" /\
  exists (cleared result : node) (exitStatus : option Z)
         (outcome : Outcome unit) (w' : World),
    lookup (segments (pythonEnvArchive (resourceFiles Scenario.paths))) cleared
      = None /\
    childProcess Scenario.env (sevenZipExe (resourceFiles Scenario.paths))
      ["a"; pythonEnvArchive (resourceFiles Scenario.paths);
       join (pythonEnvDir Scenario.paths) "*"]
      (buildDir Scenario.paths) cleared = (result, exitStatus) /\
    PreparePythonEnv.compressPythonEnvironment Scenario.env Scenario.paths
      Scenario.world = (outcome, w') /\
    files w' = result.
Proof.
  split; [vm_compute; reflexivity|].
  destruct (stale_archive_is_removed Scenario.env Scenario.paths Scenario.world)
    as (cleared & result & exitStatus & outcome & w' & _ & _ & A & B & C & D & _).
  - vm_compute. discriminate.
  - exists cleared, result, exitStatus, outcome, w'.
    split; [exact A|]. split; [exact B|]. split; [exact C|exact D].
Defined.

(** * More facts about the file tree *)

Lemma assoc_removeKey_other (k k' : string) (es : list (string * node)) :
  k' <> k -> assoc k' (removeKey k es) = assoc k' es.
Proof.
  intros Hne. induction es as [|[k0 n0] es IH]; simpl; [reflexivity|].
  destruct (String.eqb_spec k0 k) as [->|Hk]; simpl.
  - apply not_eq_sym in Hne. apply String.eqb_neq in Hne. now rewrite Hne.
  - now rewrite IH.
Qed.

Lemma removeKey_absent (k : string) (es : list (string * node)) :
  assoc k es = None -> removeKey k es = es.
Proof.
  induction es as [|[k0 n0] es IH]; simpl; [reflexivity|].
  destruct (k0 =? k); [discriminate|]. intros H. simpl. now rewrite IH.
Qed.

Lemma removeKey_setKey (k : string) (n : node) (es : list (string * node)) :
  removeKey k (setKey k n es) = removeKey k es.
Proof.
  induction es as [|[k0 n0] es IH]; simpl.
  - now rewrite String.eqb_refl.
  - destruct (k0 =? k) eqn:E; simpl.
    + now rewrite String.eqb_refl.
    + now rewrite E, IH.
Qed.

Lemma setKey_setKey (k : string) (a b : node) (es : list (string * node)) :
  setKey k a (setKey k b es) = setKey k a es.
Proof.
  induction es as [|[k0 n0] es IH]; simpl.
  - now rewrite String.eqb_refl.
  - destruct (k0 =? k) eqn:E; simpl.
    + now rewrite String.eqb_refl.
    + now rewrite E, IH.
Qed.

Lemma setKey_unchanged (k : string) (n : node) (es : list (string * node)) :
  assoc k es = Some n -> setKey k n es = es.
Proof.
  induction es as [|[k0 n0] es IH]; simpl; [discriminate|].
  destruct (String.eqb_spec k0 k) as [->|Hk].
  - now inversion 1.
  - intros H. now rewrite IH.
Qed.

Lemma map_fst_setKey (k : string) (n old : node) (es : list (string * node)) :
  assoc k es = Some old -> map fst (setKey k n es) = map fst es.
Proof.
  induction es as [|[k0 n0] es IH]; simpl; [discriminate|].
  destruct (String.eqb_spec k0 k) as [->|Hk]; simpl; [reflexivity|].
  intros H. now rewrite IH.
Qed.

(** A directory cannot be written as a file. *)
Lemma write_on_directory (p : list string) (data : string) (n : node)
      (es : list (string * node)) :
  lookup p n = Some (Dir es) -> write p data n = None.
Proof.
  revert n. induction p as [|k p IH]; intros n H; [reflexivity|].
  simpl in *. destruct n as [c|es0]; [reflexivity|].
  destruct (assoc k es0) as [child|]; [|discriminate].
  destruct p as [|k2 p].
  - simpl in H. inversion H; subst. reflexivity.
  - now rewrite (IH child H).
Qed.

(** A new file can be written in a directory. *)
Lemma write_new_child (p : list string) (k data : string) (n : node)
      (es : list (string * node)) :
  lookup p n = Some (Dir es) -> assoc k es = None ->
  exists n', write (p ++ [k])%list data n = Some n'.
Proof.
  revert n. induction p as [|k0 p IH]; intros n H Hk.
  - simpl in H. inversion H; subst. simpl. rewrite Hk. eauto.
  - simpl in H. destruct n as [c|es0]; [discriminate|].
    destruct (assoc k0 es0) as [child|] eqn:E; [|discriminate].
    destruct (IH child H Hk) as [child' W].
    change ((k0 :: p) ++ [k])%list with (k0 :: (p ++ [k]))%list.
    cbn [write]. rewrite E, W.
    destruct (p ++ [k])%list eqn:P; [now destruct p|]. eauto.
Qed.

(** After a write over a listed entry the directory lists the same names. *)
Lemma lookup_write_parent (p : list string) (k data : string) (n n' : node)
      (es : list (string * node)) :
  lookup p n = Some (Dir es) ->
  write (p ++ [k])%list data n = Some n' ->
  lookup p n' = Some (Dir (setKey k (File data) es)).
Proof.
  revert n n'. induction p as [|k0 p IH]; intros n n' H W.
  - simpl in H. inversion H; subst. simpl in W.
    destruct (assoc k es) as [[c|es']|]; inversion W; reflexivity.
  - simpl in H. destruct n as [c|es0]; [discriminate|].
    destruct (assoc k0 es0) as [child|] eqn:E; [|discriminate].
    change ((k0 :: p) ++ [k])%list with (k0 :: (p ++ [k]))%list in W.
    cbn [write] in W. rewrite E in W.
    destruct (p ++ [k])%list eqn:P; [now destruct p|].
    destruct (write (s :: l) data child) as [child'|] eqn:W'; [|discriminate].
    inversion W; subst. cbn [lookup]. rewrite assoc_setKey_same.
    now apply (IH child).
Qed.

(** What can be removed was there. *)
Lemma remove_was_present (p : list string) (n n' : node) :
  remove p n = Some n' -> lookup p n <> None.
Proof.
  revert n n'. induction p as [|k p IH]; intros n n' H; simpl in *;
    [discriminate|].
  destruct n as [c|es]; [discriminate|].
  destruct (assoc k es) as [child|]; [|discriminate].
  destruct p as [|k2 p]; [discriminate|].
  destruct (remove (k2 :: p) child) as [child'|] eqn:R; [|discriminate].
  now apply (IH child child').
Qed.

(** A removal changes no regular file outside what it removes. *)
Lemma lookup_remove_other (p q : list string) (n n' : node) :
  remove p n = Some n' ->
  (forall rest, q <> (p ++ rest)%list) ->
  forall content,
    lookup q n' = Some (File content) <-> lookup q n = Some (File content).
Proof.
  revert n n' q. induction p as [|k p IH]; intros n n' q H Hq content;
    simpl in H; [discriminate|].
  destruct n as [c|es]; [discriminate|].
  destruct (assoc k es) as [child|] eqn:E; [|discriminate].
  destruct q as [|k' q].
  { destruct p as [|k2 p].
    - inversion H; subst. simpl. split; discriminate.
    - destruct (remove (k2 :: p) child); inversion H; subst.
      simpl. split; discriminate. }
  cbn [lookup]. destruct (String.eqb_spec k' k) as [->|Hne].
  - destruct p as [|k2 p].
    + exfalso. apply (Hq q). reflexivity.
    + destruct (remove (k2 :: p) child) as [child'|] eqn:R; [|discriminate].
      inversion H; subst. cbn [lookup]. rewrite assoc_setKey_same, E.
      apply (IH child child' q R).
      intros rest ->. apply (Hq rest). reflexivity.
  - destruct p as [|k2 p].
    + inversion H; subst. cbn [lookup].
      now rewrite (assoc_removeKey_other k k' es Hne).
    + destruct (remove (k2 :: p) child) as [child'|]; [|discriminate].
      inversion H; subst. cbn [lookup].
      now rewrite (assoc_setKey_other k k' child' es Hne).
Qed.

Lemma mkdirp_root (p : list string) (n n' : node) :
  mkdirp p n = Some n' -> exists es', n' = Dir es'.
Proof.
  destruct n as [c|es]; [destruct p; discriminate|].
  destruct p as [|k p]; [inversion 1; eauto|].
  rewrite mkdirp_cons. destruct (mkdirp p _); inversion 1; eauto.
Qed.

(** Making a directory changes no regular file and makes none. *)
Lemma lookup_mkdirp_other (p q : list string) (n n' : node) :
  mkdirp p n = Some n' ->
  forall content,
    lookup q n' = Some (File content) <-> lookup q n = Some (File content).
Proof.
  revert n n' q. induction p as [|k p IH]; intros n n' q H content.
  - destruct n; simpl in H; [discriminate|]. inversion H; subst. reflexivity.
  - destruct n as [c|es]; [discriminate|]. rewrite mkdirp_cons in H.
    destruct (mkdirp p _) as [child'|] eqn:Mk; [|discriminate].
    inversion H; subst.
    destruct q as [|k' q]; [simpl; split; discriminate|].
    cbn [lookup]. destruct (String.eqb_spec k' k) as [->|Hne].
    + rewrite assoc_setKey_same. rewrite (IH _ _ q Mk content).
      destruct (assoc k es) as [child|]; [reflexivity|].
      destruct q; simpl; split; discriminate.
    + now rewrite (assoc_setKey_other k k' child' es Hne).
Qed.

(** Making a directory leaves what was there. *)
Lemma lookup_mkdirp_preserved (p q : list string) (n n' : node) :
  mkdirp p n = Some n' -> lookup q n <> None -> lookup q n' <> None.
Proof.
  revert n n' q. induction p as [|k p IH]; intros n n' q H.
  - destruct n; simpl in H; [discriminate|]. inversion H; subst. trivial.
  - destruct n as [c|es]; [discriminate|]. rewrite mkdirp_cons in H.
    destruct (mkdirp p _) as [child'|] eqn:Mk; [|discriminate].
    inversion H; subst.
    destruct q as [|k' q]; [discriminate|].
    cbn [lookup]. destruct (String.eqb_spec k' k) as [->|Hne].
    + rewrite assoc_setKey_same.
      destruct (assoc k es) as [child|]; [|contradiction].
      now apply (IH _ _ q Mk).
    + now rewrite (assoc_setKey_other k k' child' es Hne).
Qed.

(** Where a directory was made there is a directory. *)
Lemma lookup_mkdirp_same (p : list string) (n n' : node) :
  mkdirp p n = Some n' -> exists es, lookup p n' = Some (Dir es).
Proof.
  revert n n'. induction p as [|k p IH]; intros n n' H.
  - destruct (mkdirp_root _ _ _ H) as [es ->]. simpl. eauto.
  - destruct n as [c|es]; [discriminate|]. rewrite mkdirp_cons in H.
    destruct (mkdirp p _) as [child'|] eqn:Mk; [|discriminate].
    inversion H; subst. cbn [lookup]. rewrite assoc_setKey_same.
    now apply (IH _ _ Mk).
Qed.

(** Making a directory that is there changes nothing. *)
Lemma mkdirp_existing (p : list string) (n : node) (es : list (string * node)) :
  lookup p n = Some (Dir es) -> mkdirp p n = Some n.
Proof.
  revert n. induction p as [|k p IH]; intros n H.
  - simpl in H. inversion H; subst. reflexivity.
  - simpl in H. destruct n as [c|es0]; [discriminate|].
    rewrite mkdirp_cons.
    destruct (assoc k es0) as [child|] eqn:E; [|discriminate].
    rewrite (IH child H). now rewrite (setKey_unchanged _ _ _ E).
Qed.

Lemma remove_cons (k k2 : string) (p : list string)
      (es : list (string * node)) :
  remove (k :: k2 :: p) (Dir es) =
    match assoc k es with
    | None => None
    | Some child =>
        match remove (k2 :: p) child with
        | Some child' => Some (Dir (setKey k child' es))
        | None => None
        end
    end.
Proof.
  reflexivity.
Qed.

(** A directory made after a removal can be removed and made again, and
    the tree is the same. *)
Lemma remove_mkdirp_after_remove (p : list string) (n m m' : node) :
  remove p n = Some m -> mkdirp p m = Some m' -> remove p m' = Some m.
Proof.
  revert n m m'. induction p as [|k p IH]; intros n m m' R Mk; simpl in R;
    [discriminate|].
  destruct n as [c|es]; [discriminate|].
  destruct (assoc k es) as [child|] eqn:E; [|discriminate].
  destruct p as [|k2 p].
  - inversion R; subst. rewrite mkdirp_cons, assoc_removeKey_same in Mk.
    cbn [mkdirp] in Mk. inversion Mk; subst.
    cbn [remove]. rewrite assoc_setKey_same, removeKey_setKey.
    now rewrite (removeKey_absent k (removeKey k es))
      by apply assoc_removeKey_same.
  - destruct (remove (k2 :: p) child) as [child1|] eqn:R1; [|discriminate].
    inversion R; subst. rewrite mkdirp_cons, assoc_setKey_same in Mk.
    destruct (mkdirp (k2 :: p) child1) as [child2|] eqn:Mk2; [|discriminate].
    inversion Mk; subst.
    rewrite remove_cons, assoc_setKey_same.
    rewrite (IH child child1 child2 R1 Mk2). now rewrite !setKey_setKey.
Qed.

Lemma remove_mkdirp_fresh (p : list string) (n m' : node) :
  lookup p n = None -> mkdirp p n = Some m' ->
  exists m, remove p m' = Some m /\ mkdirp p m = Some m'.
Proof.
  revert n m'. induction p as [|k p IH]; intros n m' L Mk; [discriminate|].
  destruct n as [c|es]; [discriminate|].
  rewrite mkdirp_cons in Mk. cbn [lookup] in L.
  destruct (mkdirp p _) as [child'|] eqn:Mk'; [|discriminate].
  inversion Mk; subst. clear Mk.
  destruct p as [|k2 p].
  - destruct (assoc k es) as [child|] eqn:E; [discriminate|].
    cbn [mkdirp] in Mk'. inversion Mk'; subst.
    exists (Dir es). split.
    + cbn [remove]. rewrite assoc_setKey_same, removeKey_setKey.
      now rewrite (removeKey_absent _ _ E).
    + rewrite mkdirp_cons, E. reflexivity.
  - assert (L' : lookup (k2 :: p)
                   (match assoc k es with Some c => c | None => Dir [] end)
                 = None).
    { destruct (assoc k es); [exact L|reflexivity]. }
    destruct (IH _ _ L' Mk') as (c & Rc & Mc).
    exists (Dir (setKey k c es)). split.
    + rewrite remove_cons, assoc_setKey_same, Rc. now rewrite setKey_setKey.
    + rewrite mkdirp_cons, assoc_setKey_same, Mc. now rewrite setKey_setKey.
Qed.

(** The segments of a directory path followed by '/' and a name. *)
Lemma segments_slash (dir name : string) :
  occurs "/" name = false ->
  segments (dir ++ "/" ++ name)
    = (segments dir ++ (if (name =? "") then [] else [name]))%list.
Proof.
  intros Hs. unfold segments.
  change (dir ++ "/" ++ name) with (dir ++ String "/" name).
  rewrite split_app, filter_app, (split_without _ _ Hs). simpl.
  now destruct (name =? "").
Qed.

Lemma write_cons (k k2 data : string) (p : list string)
      (es : list (string * node)) :
  write (k :: k2 :: p) data (Dir es) =
    match assoc k es with
    | Some child =>
        match write (k2 :: p) data child with
        | Some child' => Some (Dir (setKey k child' es))
        | None => None
        end
    | None => None
    end.
Proof.
  reflexivity.
Qed.

(** Nothing can be written where the parent is missing. *)
Lemma write_missing_parent (p : list string) (k data : string) (n : node) :
  lookup p n = None -> write (p ++ [k])%list data n = None.
Proof.
  revert n. induction p as [|k0 p IH]; intros n H; [discriminate|].
  simpl in H. change ((k0 :: p) ++ [k])%list with (k0 :: (p ++ [k]))%list.
  destruct n as [c|es]; [reflexivity|].
  specialize (IH (match assoc k0 es with Some c => c | None => Dir [] end)).
  destruct (p ++ [k])%list as [|s l] eqn:P; [now destruct p|].
  rewrite write_cons.
  destruct (assoc k0 es) as [child|]; [|reflexivity].
  now rewrite (IH H).
Qed.

(** No directory can be made at or below a regular file. *)
Lemma mkdirp_below_file (before rest : list string) (content : string)
      (n : node) :
  lookup before n = Some (File content) ->
  mkdirp (before ++ rest)%list n = None.
Proof.
  revert n. induction before as [|k before IH]; intros n H.
  - simpl in H. inversion H; subst. now destruct rest.
  - simpl in H. destruct n as [c|es]; [discriminate|].
    change ((k :: before) ++ rest)%list with (k :: (before ++ rest))%list.
    rewrite mkdirp_cons.
    destruct (assoc k es) as [child|]; [|discriminate].
    now rewrite (IH child H).
Qed.

(** * More about the fetch script *)

Section FetchMore.

Import FetchPythonPackageResources.

Variable env : Env.
Variable buildPaths : BuildPaths.

Ltac run_fetch :=
  unfold downloadFile, tryCatch, bind, ret, throw, console_log, console_error,
    emit, fetch, pipeline; cbn [files trace];
  rewrite ?requests_app, ?Nat.add_0_r.

(** X1. The base filename of a string that ends with '/' and a piece
    without '/' is that piece: the empty string for a URL that ends with
    '/', the query string included for a URL that has one.  Taking the base
    filename again changes nothing. *)
Theorem getBaseFileName_last_piece (before name : string) :
  occurs "/" name = false ->
  getBaseFileName (before ++ "/" ++ name) = name /\
  getBaseFileName name = name.
Proof.
  intros H. unfold getBaseFileName. cbv zeta. split.
  - change (before ++ "/" ++ name) with (before ++ String "/" name).
    rewrite split_app, (split_without _ _ H). apply nth_last.
  - now rewrite (split_without _ _ H).
Qed.

(** X2. A URL that ends with '/' has the empty base filename, and its
    destination is the resources directory itself: when that directory
    exists, the acquisition reports a success for the URL, makes no request
    and writes nothing. *)
Theorem directory_url_counts_as_cached
        (before : string) (w : World) (es : list (string * node)) :
  lookup (segments (resourcesDir buildPaths)) (files w) = Some (Dir es) ->
  exists w',
    downloadFileIfNotPresent env buildPaths (before ++ "/") w
      = (Return (mkDownloadResult (before ++ "/")
                   (resourcesDir buildPaths ++ "/") true None), w') /\
    files w' = files w /\
    requests (trace w') = requests (trace w).
Proof.
  intros L.
  assert (E : expectedFilePath buildPaths (before ++ "/")
              = resourcesDir buildPaths ++ "/").
  { unfold expectedFilePath, getBaseFileName. cbv zeta.
    change (before ++ "/") with (before ++ String "/" "").
    rewrite split_app. cbn [split]. now rewrite nth_last. }
  rewrite (downloadFileIfNotPresent_hit env buildPaths (before ++ "/") w).
  - rewrite E. eexists. split; [reflexivity|]. cbn [files trace].
    split; [reflexivity|]. rewrite requests_app. cbn. lia.
  - rewrite E.
    change (resourcesDir buildPaths ++ "/")
      with (resourcesDir buildPaths ++ "/" ++ "").
    rewrite (segments_slash _ "" eq_refl). cbn. rewrite app_nil_r.
    now rewrite L.
Qed.

(** X3. [downloadFile] makes exactly one request, however it ends: there is
    no second attempt.  [downloadFileIfNotPresent] makes none when the
    destination exists and one when it does not. *)
Theorem one_request_per_download (url targetPath : string) (w : World) :
  (exists r w',
      downloadFile env url targetPath w = (Return r, w') /\
      requests (trace w') = S (requests (trace w))) /\
  (exists r w',
      downloadFileIfNotPresent env buildPaths url w = (Return r, w') /\
      requests (trace w') =
        if isSome (lookup (segments (expectedFilePath buildPaths url)) (files w))
        then requests (trace w)
        else S (requests (trace w))).
Proof.
  assert (D : forall target,
             exists r w',
               downloadFile env url target w = (Return r, w') /\
               requests (trace w') = S (requests (trace w))).
  { intros target. run_fetch.
    destruct (net env url _) as [response|reason]; cbn.
    - destruct (ok response); cbn.
      + destruct (body response) as [b|]; cbn.
        * destruct (write _ _ _); cbn.
          -- destruct (failure b); cbn; eexists; eexists;
               (split; [reflexivity|]); cbn;
               rewrite !requests_app; cbn; lia.
          -- eexists; eexists; (split; [reflexivity|]); cbn;
               rewrite !requests_app; cbn; lia.
        * eexists; eexists; (split; [reflexivity|]); cbn;
            rewrite !requests_app; cbn; lia.
      + eexists; eexists; (split; [reflexivity|]); cbn;
          rewrite !requests_app; cbn; lia.
    - eexists; eexists; (split; [reflexivity|]); cbn;
        rewrite !requests_app; cbn; lia. }
  split; [apply D|].
  unfold downloadFileIfNotPresent, bind at 1, existsSync.
  destruct (isSome _).
  - unfold bind, console_log, emit, ret. eexists; eexists.
    split; [reflexivity|]. cbn. rewrite requests_app. cbn. lia.
  - apply D.
Qed.

(** X4. [downloadFile] changes no file but its target, and removes
    nothing: every other regular file keeps its content and whatever
    existed still exists. *)
Theorem download_touches_only_target
        (url targetPath : string) (w w' : World) (r : DownloadResult) :
  downloadFile env url targetPath w = (Return r, w') ->
  (forall other,
      segments other <> segments targetPath ->
      readFile other (files w') = readFile other (files w)) /\
  (forall q, lookup q (files w) <> None -> lookup q (files w') <> None).
Proof.
  intros H. apply downloadFile_files in H as [E|[data W]].
  - rewrite E. split; trivial.
  - split.
    + intros other Hne. now apply readFile_write_other with (1 := W).
    + intros q. now apply lookup_write_preserved with (1 := W).
Qed.

(** X5. When the request is rejected, the outcome carries the message of
    the rejection and no file is written; when a successful response has no
    body, the outcome carries "Response body is null" and no file is
    written. *)
Theorem failed_request_writes_nothing (url targetPath : string) (w : World) :
  (forall reason,
      net env url (requests (trace w)) = Rejected reason ->
      exists w',
        downloadFile env url targetPath w
          = (Return (mkDownloadResult url targetPath false
                       (Some (errorMessage reason))), w') /\
        files w' = files w) /\
  (forall response,
      net env url (requests (trace w)) = Resolved response ->
      ok response = true ->
      body response = None ->
      exists w',
        downloadFile env url targetPath w
          = (Return (mkDownloadResult url targetPath false
                       (Some "Response body is null")), w') /\
        files w' = files w).
Proof.
  split.
  - intros reason Hnet. run_fetch. rewrite Hnet. cbn.
    eexists. split; reflexivity.
  - intros response Hnet Hok Hb. run_fetch. rewrite Hnet. cbn.
    rewrite Hok, Hb. cbn. eexists. split; reflexivity.
Qed.

(** X6. When the body of a successful response breaks off while it is
    streamed, the acquisition reports the failure, but the file that was
    opened stays with what was delivered: the next acquisition of the same
    URL finds it, reports a success and makes no request. *)
Theorem broken_download_is_then_cached
        (url : string) (w : World) (response : Response) (b : Body)
        (reason : JsValue) (root : node) :
  lookup (segments (expectedFilePath buildPaths url)) (files w) = None ->
  net env url (requests (trace w)) = Resolved response ->
  ok response = true ->
  body response = Some b ->
  failure b = Some reason ->
  write (segments (expectedFilePath buildPaths url)) (delivered b) (files w)
    = Some root ->
  exists w1,
    downloadFileIfNotPresent env buildPaths url w
      = (Return (mkDownloadResult url (expectedFilePath buildPaths url) false
                   (Some (errorMessage reason))), w1) /\
    readFile (expectedFilePath buildPaths url) (files w1)
      = Some (delivered b) /\
    exists w2,
      downloadFileIfNotPresent env buildPaths url w1
        = (Return (mkDownloadResult url (expectedFilePath buildPaths url)
                     true None), w2) /\
      files w2 = files w1 /\
      requests (trace w2) = requests (trace w1).
Proof.
  intros L Hnet Hok Hb Hf W.
  assert (D : exists w1,
             downloadFile env url (expectedFilePath buildPaths url) w
               = (Return (mkDownloadResult url (expectedFilePath buildPaths url)
                            false (Some (errorMessage reason))), w1) /\
             files w1 = root).
  { run_fetch. rewrite Hnet. cbn. rewrite Hok, Hb. cbn. rewrite W, Hf.
    eexists. split; reflexivity. }
  destruct D as (w1 & D & F). exists w1. split.
  { unfold downloadFileIfNotPresent, bind at 1, existsSync.
    rewrite L. exact D. }
  pose proof (lookup_write_same _ _ _ _ W) as L1. rewrite <- F in L1.
  split; [unfold readFile; now rewrite L1|].
  rewrite downloadFileIfNotPresent_hit by congruence.
  eexists. split; [reflexivity|]. cbn [files trace].
  split; [reflexivity|]. rewrite !requests_app. cbn. lia.
Qed.

(** X7. Two URLs with the same base filename have the same destination:
    once one of them was acquired with success, the other is reported as a
    success too, without a request, and the file is not replaced. *)
Theorem same_name_shares_destination
        (url1 url2 : string) (w w1 : World) (r : DownloadResult) :
  getBaseFileName url1 = getBaseFileName url2 ->
  downloadFileIfNotPresent env buildPaths url1 w = (Return r, w1) ->
  success r = true ->
  exists w2,
    downloadFileIfNotPresent env buildPaths url2 w1
      = (Return (mkDownloadResult url2 (expectedFilePath buildPaths url1)
                   true None), w2) /\
    files w2 = files w1 /\
    requests (trace w2) = requests (trace w1).
Proof.
  intros Hname H S.
  assert (E : expectedFilePath buildPaths url2 = expectedFilePath buildPaths url1).
  { unfold expectedFilePath. cbv zeta. now rewrite Hname. }
  pose proof (downloadFileIfNotPresent_success env buildPaths _ _ _ _ H S) as L.
  rewrite downloadFileIfNotPresent_hit by now rewrite E.
  rewrite E. eexists. split; [reflexivity|]. cbn [files trace].
  split; [reflexivity|]. rewrite requests_app. cbn. lia.
Qed.

End FetchMore.

Section DirectoriesMore.

Import FetchPythonPackageResources.

Variable env : Env.
Variable buildPaths : BuildPaths.

(** How [prepareDirectories] runs: each of the two directories is made when
    nothing exists at its path. *)
Lemma prepareDirectories_steps (w w' : World) :
  prepareDirectories buildPaths w = (Return tt, w') ->
  exists mid,
    (mid = files w /\ lookup (segments (buildDir buildPaths)) (files w) <> None
     \/ mkdirp (segments (buildDir buildPaths)) (files w) = Some mid) /\
    (files w' = mid /\ lookup (segments (resourcesDir buildPaths)) mid <> None
     \/ mkdirp (segments (resourcesDir buildPaths)) mid = Some (files w')) /\
    filter isWork (trace w') = filter isWork (trace w).
Proof.
  unfold prepareDirectories, bind, ret, existsSync, console_log, emit,
    mkdirSync_recursive; cbn [files trace].
  destruct (lookup (segments (buildDir buildPaths)) (files w)) eqn:Lb;
    cbn [isSome negb files trace].
  - destruct (lookup (segments (resourcesDir buildPaths)) (files w)) eqn:Lr;
      cbn [isSome negb files trace].
    + inversion 1; subst. exists (files w). cbn [files trace].
      split; [left; split; congruence|]. split; [left; split; congruence|].
      now rewrite filter_isWork_log.
    + destruct (mkdirp (segments (resourcesDir buildPaths)) (files w))
        as [made|] eqn:Mr; cbn [files trace]; [|discriminate].
      inversion 1; subst. exists (files w). cbn [files trace].
      split; [left; split; congruence|]. split; [now right|].
      now rewrite !filter_isWork_log.
  - destruct (mkdirp (segments (buildDir buildPaths)) (files w))
      as [mid|] eqn:Mb; cbn [files trace]; [|discriminate].
    destruct (lookup (segments (resourcesDir buildPaths)) mid) eqn:Lr;
      cbn [isSome negb files trace].
    + inversion 1; subst. exists mid. cbn [files trace].
      split; [now right|]. split; [left; split; congruence|].
      now rewrite !filter_isWork_log.
    + destruct (mkdirp (segments (resourcesDir buildPaths)) mid)
        as [made|] eqn:Mr; cbn [files trace]; [|discriminate].
      inversion 1; subst. exists mid. cbn [files trace].
      split; [now right|]. split; [now right|].
      now rewrite !filter_isWork_log.
Qed.

(** After [prepareDirectories] no regular file is made, changed or lost. *)
Lemma prepareDirectories_files (w w' : World) :
  prepareDirectories buildPaths w = (Return tt, w') ->
  forall q content,
    lookup q (files w') = Some (File content)
    <-> lookup q (files w) = Some (File content).
Proof.
  intros H q content.
  destruct (prepareDirectories_steps w w' H) as (mid & Hb & Hr & _).
  assert (F1 : lookup q mid = Some (File content)
               <-> lookup q (files w) = Some (File content)).
  { destruct Hb as [[-> _]|Mb]; [reflexivity|].
    now apply lookup_mkdirp_other with (1 := Mb). }
  assert (F2 : lookup q (files w') = Some (File content)
               <-> lookup q mid = Some (File content)).
  { destruct Hr as [[-> _]|Mr]; [reflexivity|].
    now apply lookup_mkdirp_other with (1 := Mr). }
  now rewrite F2, F1.
Qed.

(** After [prepareDirectories] the two directories are there. *)
Lemma prepareDirectories_present (w w' : World) (dir : string) :
  prepareDirectories buildPaths w = (Return tt, w') ->
  dir = buildDir buildPaths \/ dir = resourcesDir buildPaths ->
  lookup (segments dir) (files w') <> None /\
  (lookup (segments dir) (files w) = None ->
   exists es, lookup (segments dir) (files w') = Some (Dir es)).
Proof.
  intros H Hd.
  destruct (prepareDirectories_steps w w' H) as (mid & Hb & Hr & _).
  assert (E : lookup (segments dir) (files w') <> None).
  { destruct Hd as [->| ->].
    - assert (Lm : lookup (segments (buildDir buildPaths)) mid <> None).
      { destruct Hb as [[-> Lb]|Mb]; [exact Lb|].
        destruct (lookup_mkdirp_same _ _ _ Mb) as [es ->]. discriminate. }
      destruct Hr as [[-> _]|Mr]; [exact Lm|].
      now apply lookup_mkdirp_preserved with (1 := Mr).
    - destruct Hr as [[-> Lr]|Mr]; [exact Lr|].
      destruct (lookup_mkdirp_same _ _ _ Mr) as [es ->]. discriminate. }
  split; [exact E|]. intros Hnone.
  destruct (lookup (segments dir) (files w')) as [[c|es]|] eqn:L;
    [|eauto|contradiction].
  apply (prepareDirectories_files w w' H) in L. congruence.
Qed.

(** X8. When [prepareDirectories] returns, something exists at the path of
    the build directory and at the path of the resources directory, and it
    is a directory where nothing was before; no regular file was made,
    changed or lost, nothing that existed is gone, and nothing but the
    console was used. *)
Theorem prepareDirectories_makes_directories (w w' : World) :
  prepareDirectories buildPaths w = (Return tt, w') ->
  (forall dir,
      dir = buildDir buildPaths \/ dir = resourcesDir buildPaths ->
      lookup (segments dir) (files w') <> None /\
      (lookup (segments dir) (files w) = None ->
       exists es, lookup (segments dir) (files w') = Some (Dir es))) /\
  (forall q content,
      lookup q (files w') = Some (File content)
      <-> lookup q (files w) = Some (File content)) /\
  (forall q, lookup q (files w) <> None -> lookup q (files w') <> None) /\
  filter isWork (trace w') = filter isWork (trace w).
Proof.
  intros H.
  split; [intros dir Hd; now apply prepareDirectories_present|].
  split; [now apply prepareDirectories_files|].
  destruct (prepareDirectories_steps w w' H) as (mid & Hb & Hr & Ht).
  split; [|exact Ht].
  intros q Hq.
  assert (Lm : lookup q mid <> None).
  { destruct Hb as [[-> _]|Mb]; [exact Hq|].
    now apply lookup_mkdirp_preserved with (1 := Mb). }
  destruct Hr as [[-> _]|Mr]; [exact Lm|].
  now apply lookup_mkdirp_preserved with (1 := Mr).
Qed.

(** X9. [prepareDirectories] can be run again: after a run that returned,
    a second run returns too, changes no file and prints only its first
    message. *)
Theorem prepareDirectories_is_idempotent (w w1 : World) :
  prepareDirectories buildPaths w = (Return tt, w1) ->
  prepareDirectories buildPaths w1
    = (Return tt,
       mkWorld (files w1)
         (trace w1 ++ [ConsoleLog "📁 Preparing build directories..."])).
Proof.
  intros H.
  destruct (prepareDirectories_present w w1 (buildDir buildPaths) H
              (or_introl eq_refl)) as [Lb _].
  destruct (prepareDirectories_present w w1 (resourcesDir buildPaths) H
              (or_intror eq_refl)) as [Lr _].
  unfold prepareDirectories, bind, ret, existsSync, console_log, emit,
    mkdirSync_recursive; cbn [files trace].
  destruct (lookup (segments (buildDir buildPaths)) (files w1));
    [|contradiction].
  cbn [isSome negb files trace].
  destruct (lookup (segments (resourcesDir buildPaths)) (files w1));
    [|contradiction].
  reflexivity.
Qed.

(** X10. Without the resources directory nothing can be acquired: when
    nothing exists at its path, the acquisition of a URL with a non-empty
    base filename ends in a failure, even if the request meets a successful
    response with a sound body, and no file is written. *)
Theorem download_needs_resources_directory
        (url : string) (w : World) (response : Response) (b : Body) :
  lookup (segments (resourcesDir buildPaths)) (files w) = None ->
  getBaseFileName url <> "" ->
  net env url (requests (trace w)) = Resolved response ->
  ok response = true ->
  body response = Some b ->
  exists r w',
    downloadFileIfNotPresent env buildPaths url w = (Return r, w') /\
    success r = false /\
    files w' = files w.
Proof.
  intros L Hname Hnet Hok Hb.
  assert (Hs : occurs "/" (getBaseFileName url) = false).
  { unfold getBaseFileName. cbv zeta.
    pose proof (split_pieces "/" url) as F.
    pose proof (split_not_nil "/" url) as N.
    rewrite Forall_forall in F. apply F. apply nth_In.
    destruct (split "/" url); [contradiction|simpl; lia]. }
  assert (S : segments (expectedFilePath buildPaths url)
              = (segments (resourcesDir buildPaths) ++ [getBaseFileName url])%list).
  { unfold expectedFilePath. cbv zeta. rewrite (segments_slash _ _ Hs).
    apply String.eqb_neq in Hname. now rewrite Hname. }
  unfold downloadFileIfNotPresent, bind at 1, existsSync.
  rewrite S, lookup_app, L. cbn [isSome].
  unfold downloadFile, tryCatch, bind, ret, throw, console_log, console_error,
    emit, fetch, pipeline; cbn [files trace].
  rewrite requests_app, Nat.add_0_r, Hnet. cbn. rewrite Hok, Hb. cbn.
  rewrite S, (write_missing_parent _ _ _ _ L).
  eexists. eexists. split; [reflexivity|]. split; reflexivity.
Qed.

(** X11. After [prepareDirectories], run where no resources directory was,
    the acquisition of a URL with a non-empty base filename succeeds when
    its request meets a successful response whose body streams to the end,
    and the destination then exists. *)
Theorem download_after_prepareDirectories
        (url : string) (w w1 : World) (response : Response) (b : Body) :
  lookup (segments (resourcesDir buildPaths)) (files w) = None ->
  prepareDirectories buildPaths w = (Return tt, w1) ->
  getBaseFileName url <> "" ->
  net env url (requests (trace w1)) = Resolved response ->
  ok response = true ->
  body response = Some b ->
  failure b = None ->
  exists w2,
    downloadFileIfNotPresent env buildPaths url w1
      = (Return (mkDownloadResult url (expectedFilePath buildPaths url)
                   true None), w2) /\
    lookup (segments (expectedFilePath buildPaths url)) (files w2) <> None.
Proof.
  intros L H Hname Hnet Hok Hb Hf.
  destruct (prepareDirectories_present w w1 (resourcesDir buildPaths) H
              (or_intror eq_refl)) as [_ D].
  destruct (D L) as [es Lr].
  assert (Hs : occurs "/" (getBaseFileName url) = false).
  { unfold getBaseFileName. cbv zeta.
    pose proof (split_pieces "/" url) as F.
    pose proof (split_not_nil "/" url) as N.
    rewrite Forall_forall in F. apply F. apply nth_In.
    destruct (split "/" url); [contradiction|simpl; lia]. }
  assert (S : segments (expectedFilePath buildPaths url)
              = (segments (resourcesDir buildPaths) ++ [getBaseFileName url])%list).
  { unfold expectedFilePath. cbv zeta. rewrite (segments_slash _ _ Hs).
    apply String.eqb_neq in Hname. now rewrite Hname. }
  destruct (lookup (segments (expectedFilePath buildPaths url)) (files w1))
    as [present|] eqn:Lp.
  - rewrite downloadFileIfNotPresent_hit by congruence.
    eexists. split; [reflexivity|]. cbn [files]. congruence.
  - assert (A : assoc (getBaseFileName url) es = None).
    { rewrite S, lookup_app, Lr in Lp. cbn in Lp.
      destruct (assoc (getBaseFileName url) es); [discriminate|reflexivity]. }
    destruct (write_new_child _ _ (delivered b) _ _ Lr A) as [root W].
    rewrite <- S in W.
    unfold downloadFileIfNotPresent, bind at 1, existsSync.
    rewrite Lp. cbn [isSome].
    unfold downloadFile, tryCatch, bind, ret, throw, console_log, console_error,
      emit, fetch, pipeline; cbn [files trace].
    rewrite requests_app, Nat.add_0_r, Hnet. cbn. rewrite Hok, Hb. cbn.
    rewrite W, Hf. eexists. split; [reflexivity|]. cbn [files].
    now rewrite (lookup_write_same _ _ _ _ W).
Qed.

End DirectoriesMore.

(** * More about the staging script *)

Lemma readFile_same_files (path : string) (n n' : node) :
  (forall content,
      lookup (segments path) n' = Some (File content)
      <-> lookup (segments path) n = Some (File content)) ->
  readFile path n' = readFile path n.
Proof.
  intros H. unfold readFile.
  destruct (lookup (segments path) n') as [[c|es]|].
  - now rewrite (proj1 (H c) eq_refl).
  - destruct (lookup (segments path) n) as [[c|es']|]; trivial.
    now pose proof (proj2 (H c) eq_refl).
  - destruct (lookup (segments path) n) as [[c|es']|]; trivial.
    now pose proof (proj2 (H c) eq_refl).
Qed.

Section PrepareMore.

Import PreparePythonEnv.

Variable env : Env.
Variable buildPaths : BuildPaths.

(** X12. The pattern matches a name exactly when the name is "python", a
    non-empty run of decimal digits and "._pth", and the version it gives
    is that run of digits; nothing may follow: a matching name with
    anything appended does not match. *)
Theorem pattern_matches_exactly :
  (forall file version,
      pthFilePattern file = Some version <->
      file = "python" ++ version ++ "._pth" /\
      version <> "" /\ allDigits version = true) /\
  (forall file version extra,
      pthFilePattern file = Some version ->
      extra <> "" ->
      pthFilePattern (file ++ extra) = None).
Proof.
  split; [intros file version; apply pthFilePattern_spec|].
  intros file version extra Hm Hextra.
  apply pthFilePattern_spec in Hm as (-> & Hv & Hd).
  unfold pthFilePattern.
  assert (P : stripPrefix "python" (("python" ++ version ++ "._pth") ++ extra)
              = Some (version ++ "._pth" ++ extra)).
  { apply stripPrefix_spec. now rewrite <- !append_assoc. }
  rewrite P, spanDigits_app; trivial.
  - apply String.eqb_neq in Hv. rewrite Hv.
    destruct (String.eqb_spec ("._pth" ++ extra) "._pth") as [E|_];
      [|reflexivity].
    exfalso. apply Hextra. cbn in E. now inversion E.
  - now inversion 1.
Qed.

(** The two variables of the loop are set together. *)
Lemma findPthFile_cases (names : list string) :
  (findPthFile names = (None, None) /\
   Forall (fun f => pthFilePattern f = None) names) \/
  (exists version name,
      findPthFile names = (Some version, Some name) /\
      pthFilePattern name = Some version /\ In name names).
Proof.
  induction names as [|f names IH]; simpl.
  - left. split; [reflexivity|constructor].
  - destruct (pthFilePattern f) as [v|] eqn:P.
    + right. exists v, f. auto.
    + destruct IH as [[E F]|(v & name & E & Hm & Hin)].
      * left. split; [exact E|now constructor].
      * right. exists v, name. auto.
Qed.

(** X13. The test [!pythonVersion || !pthFileName] after the loop holds
    exactly when no listed name matches the pattern: a version that was
    found is never the empty string, and the two variables are null
    together. *)
Theorem not_found_test_is_no_match (names : list string) :
  (negb (truthy (fst (findPthFile names)))
   || negb (truthy (snd (findPthFile names))) = true
   <-> Forall (fun f => pthFilePattern f = None) names) /\
  (fst (findPthFile names) = None <-> snd (findPthFile names) = None).
Proof.
  destruct (findPthFile_cases names) as [[E F]|(v & name & E & Hm & Hin)];
    rewrite E; cbn [fst snd truthy negb orb].
  - split; [tauto|tauto].
  - pose proof (pthFilePattern_name _ _ Hm) as [Hn _].
    apply pthFilePattern_spec in Hm as Hspec. destruct Hspec as (_ & Hv & _).
    apply String.eqb_neq in Hv, Hn. rewrite Hv, Hn. cbn. split.
    + split; [discriminate|]. intros F. rewrite Forall_forall in F.
      rewrite (F name Hin) in Hm. discriminate.
    + split; discriminate.
Qed.

(** How [createPythonEnvFromEmbeddableZip] ends, case by case. *)
Lemma createPythonEnv_cases (zipFile : string) (w : World) :
  exists w',
    (createPythonEnvFromEmbeddableZip env buildPaths zipFile w = (Exit 1%Z, w') /\
     files w' = fst (admZip env zipFile (pythonEnvDir buildPaths) (files w))) \/
    (exists extracted names version name,
        createPythonEnvFromEmbeddableZip env buildPaths zipFile w
          = (Return tt, w') /\
        admZip env zipFile (pythonEnvDir buildPaths) (files w)
          = (extracted, None) /\
        listing (pythonEnvDir buildPaths) extracted = Some names /\
        findPthFile names = (Some version, Some name) /\
        write (segments (join (pythonEnvDir buildPaths) name))
          (pthContent version) extracted = Some (files w')).
Proof.
  unfold createPythonEnvFromEmbeddableZip, tryCatch, bind, ret, console_log,
    console_error, emit, extractAllTo, readdirSync, writeFileSync,
    process_exit; cbn [files trace].
  destruct (admZip env zipFile (pythonEnvDir buildPaths) (files w))
    as [extracted [reason|]] eqn:Hzip; cbn [files trace fst].
  { eexists. left. split; reflexivity. }
  destruct (listing (pythonEnvDir buildPaths) extracted) as [names|] eqn:Hls;
    cbn [files trace].
  2:{ eexists. left. split; reflexivity. }
  destruct (findPthFile_cases names) as [[E F]|(v & name & E & Hm & Hin)];
    rewrite E; cbn [files trace].
  { eexists. left. split; reflexivity. }
  pose proof (pthFilePattern_name _ _ Hm) as [Hn _].
  apply pthFilePattern_spec in Hm as Hspec. destruct Hspec as (_ & Hv & _).
  apply String.eqb_neq in Hv, Hn. cbn [truthy]. rewrite Hv, Hn.
  cbn [negb orb files trace].
  destruct (write (segments (join (pythonEnvDir buildPaths) name))
              (pthContent v) extracted) as [rewritten|] eqn:W;
    cbn [files trace].
  - eexists. right. exists extracted, names, v, name.
    split; [reflexivity|]. cbn [files]. auto.
  - eexists. left. split; reflexivity.
Qed.

(** X14. [createPythonEnvFromEmbeddableZip] never lets an exception
    through: it returns, or it ends the process, and then with exit
    status 1. *)
Theorem createPythonEnv_never_throws (zipFile : string) (w : World) :
  exists w',
    createPythonEnvFromEmbeddableZip env buildPaths zipFile w = (Return tt, w') \/
    createPythonEnvFromEmbeddableZip env buildPaths zipFile w = (Exit 1%Z, w').
Proof.
  destruct (createPythonEnv_cases zipFile w)
    as (w' & [[E _]|(? & ? & ? & ? & E & _)]);
    exists w'; auto.
Qed.

(** X15. A normal return means the work was done: the archive was
    extracted without an error, the staging directory was listed, a listed
    name matched, and the file of the first match holds the content for its
    version. *)
Theorem createPythonEnv_return_means_rewritten
        (zipFile : string) (w w' : World) :
  createPythonEnvFromEmbeddableZip env buildPaths zipFile w = (Return tt, w') ->
  exists extracted names version name,
    admZip env zipFile (pythonEnvDir buildPaths) (files w) = (extracted, None) /\
    listing (pythonEnvDir buildPaths) extracted = Some names /\
    findPthFile names = (Some version, Some name) /\
    readFile (join (pythonEnvDir buildPaths) name) (files w')
      = Some (pthContent version).
Proof.
  intros H.
  destruct (createPythonEnv_cases zipFile w)
    as (w0 & [[E _]|(extracted & names & v & name & E & Hz & Hl & Hf & W)]).
  - rewrite E in H. discriminate.
  - rewrite E in H. inversion H; subst.
    exists extracted, names, v, name. repeat (split; [assumption|]).
    now apply readFile_write_same with (1 := W).
Qed.

(** X16. When the extraction throws, the function prints the error and
    ends the process with exit status 1: the staging directory is not
    listed and nothing is rewritten, the files staying as the extraction
    left them. *)
Theorem extraction_failure_is_fatal
        (zipFile : string) (w : World) (left : node) (reason : JsValue) :
  admZip env zipFile (pythonEnvDir buildPaths) (files w) = (left, Some reason) ->
  createPythonEnvFromEmbeddableZip env buildPaths zipFile w
    = (Exit 1%Z,
       mkWorld left
         (trace w ++ [ConsoleLog "📦 Extracting embeddable Python..."]
                  ++ [Extract zipFile (pythonEnvDir buildPaths)]
                  ++ [ConsoleError ("❌ Failed to extract Python zip: "
                                      ++ jsString reason)])%list).
Proof.
  intros Hzip.
  unfold createPythonEnvFromEmbeddableZip, tryCatch, bind, ret, console_log,
    console_error, emit, extractAllTo, process_exit; cbn [files trace].
  rewrite Hzip. cbn [files trace]. now rewrite <- !app_assoc.
Qed.

(** X17. After a sound extraction, the function still ends the process
    with exit status 1, leaving the files as extracted, when the staging
    directory cannot be listed, and when the first name that matches is the
    name of a directory. *)
Theorem unusable_staging_directory_is_fatal
        (zipFile : string) (w : World) (extracted : node) :
  admZip env zipFile (pythonEnvDir buildPaths) (files w) = (extracted, None) ->
  (listing (pythonEnvDir buildPaths) extracted = None ->
   exists w',
     createPythonEnvFromEmbeddableZip env buildPaths zipFile w = (Exit 1%Z, w') /\
     files w' = extracted) /\
  (forall names version name es,
      listing (pythonEnvDir buildPaths) extracted = Some names ->
      findPthFile names = (Some version, Some name) ->
      lookup (segments (join (pythonEnvDir buildPaths) name)) extracted
        = Some (Dir es) ->
      exists w',
        createPythonEnvFromEmbeddableZip env buildPaths zipFile w
          = (Exit 1%Z, w') /\
        files w' = extracted).
Proof.
  intros Hzip.
  destruct (createPythonEnv_cases zipFile w)
    as (w0 & [[E F]|(ex & ns & v & nm & E & Hz & Hl & Hf & W)]).
  - rewrite Hzip in F. cbn in F. split; intros; exists w0; auto.
  - rewrite Hzip in Hz. inversion Hz; subst ex. split.
    + intros Hnone. congruence.
    + intros names version name es Hl' Hf' Ld.
      rewrite Hl in Hl'. inversion Hl'; subst names.
      rewrite Hf in Hf'. inversion Hf'; subst.
      rewrite (write_on_directory _ _ _ _ Ld) in W. discriminate.
Qed.

(** X18. The rewrite adds no name to the staging directory and removes
    none: after a run that rewrote a regular file, the directory lists the
    same names in the same order. *)
Theorem rewrite_keeps_the_listing
        (zipFile : string) (w w' : World) (extracted : node)
        (names : list string) (version name old : string) :
  admZip env zipFile (pythonEnvDir buildPaths) (files w) = (extracted, None) ->
  listing (pythonEnvDir buildPaths) extracted = Some names ->
  findPthFile names = (Some version, Some name) ->
  readFile (join (pythonEnvDir buildPaths) name) extracted = Some old ->
  createPythonEnvFromEmbeddableZip env buildPaths zipFile w = (Return tt, w') ->
  listing (pythonEnvDir buildPaths) (files w') = Some names.
Proof.
  intros Hzip Hls Hfind Hold H.
  destruct (createPythonEnv_cases zipFile w)
    as (w0 & [[E _]|(ex & ns & v & nm & E & Hz & Hl & Hf & W)]);
    rewrite E in H; [discriminate|].
  inversion H; subst w0. clear H.
  rewrite Hzip in Hz. inversion Hz; subst ex.
  rewrite Hls in Hl. inversion Hl; subst ns.
  rewrite Hfind in Hf. inversion Hf; subst v nm.
  destruct (findPthFile_found _ _ _ Hfind) as (_ & _ & _ & _ & Hm).
  pose proof (pthFilePattern_name _ _ Hm) as [Hn Hs].
  rewrite (segments_join _ _ Hn Hs) in W.
  unfold listing in *. unfold readFile in Hold.
  rewrite (segments_join _ _ Hn Hs), lookup_app in Hold.
  destruct (lookup (segments (pythonEnvDir buildPaths)) extracted)
    as [[c|es]|] eqn:L; try discriminate.
  inversion Hls; subst names.
  rewrite (lookup_write_parent _ _ _ _ _ _ L W). f_equal.
  cbn in Hold. destruct (assoc name es) as [child|] eqn:A; [|discriminate].
  now apply map_fst_setKey with (old := child).
Qed.

(** How [preparePythonEnvDir] runs when it returns. *)
Lemma preparePythonEnvDir_steps (w w' : World) :
  preparePythonEnvDir buildPaths w = (Return tt, w') ->
  exists cleared,
    (cleared = files w /\
     lookup (segments (pythonEnvDir buildPaths)) (files w) = None
     \/ remove (segments (pythonEnvDir buildPaths)) (files w) = Some cleared) /\
    mkdirp (segments (pythonEnvDir buildPaths)) cleared = Some (files w') /\
    filter isWork (trace w') = filter isWork (trace w).
Proof.
  unfold preparePythonEnvDir, bind, ret, existsSync, console_log, emit,
    rmSync_recursive, mkdirSync_recursive; cbn [files trace].
  destruct (lookup (segments (pythonEnvDir buildPaths)) (files w)) eqn:L;
    cbn [isSome files trace].
  - destruct (remove _ _) as [cleared|] eqn:R; [|discriminate].
    cbn [files trace].
    destruct (mkdirp _ cleared) as [made|] eqn:Mk; [|discriminate].
    inversion 1; subst. exists cleared. cbn [files trace].
    split; [now right|]. split; [exact Mk|]. now rewrite !filter_isWork_log.
  - destruct (mkdirp _ _) as [made|] eqn:Mk; [|discriminate].
    inversion 1; subst. exists (files w). cbn [files trace].
    split; [now left|]. split; [exact Mk|]. now rewrite !filter_isWork_log.
Qed.

(** X19. The reset is confined to the staging directory: every regular
    file whose path is not the path of the staging directory or a path
    below it keeps its content, and nothing but the console was used. *)
Theorem reset_touches_only_staging_directory (w w' : World) :
  preparePythonEnvDir buildPaths w = (Return tt, w') ->
  (forall other,
      (forall rest,
          segments other <> (segments (pythonEnvDir buildPaths) ++ rest)%list) ->
      readFile other (files w') = readFile other (files w)) /\
  filter isWork (trace w') = filter isWork (trace w).
Proof.
  intros H.
  destruct (preparePythonEnvDir_steps w w' H) as (cleared & Hc & Mk & Ht).
  split; [|exact Ht].
  intros other Hout. apply readFile_same_files. intros content.
  rewrite (lookup_mkdirp_other _ (segments other) _ _ Mk content).
  destruct Hc as [[-> _]|R]; [reflexivity|].
  now apply lookup_remove_other with (1 := R).
Qed.

(** X20. The reset can be run again: after a reset that returned, a second
    reset returns too and leaves the same files. *)
Theorem reset_is_idempotent (w w1 : World) :
  preparePythonEnvDir buildPaths w = (Return tt, w1) ->
  exists w2,
    preparePythonEnvDir buildPaths w1 = (Return tt, w2) /\
    files w2 = files w1.
Proof.
  intros H.
  destruct (preparePythonEnvDir_steps w w1 H) as (cleared & Hc & Mk & _).
  assert (Hm : exists m,
             remove (segments (pythonEnvDir buildPaths)) (files w1) = Some m /\
             mkdirp (segments (pythonEnvDir buildPaths)) m = Some (files w1)).
  { destruct Hc as [[-> L]|R].
    - now apply remove_mkdirp_fresh with (n := files w).
    - exists cleared. split; [|exact Mk].
      now apply remove_mkdirp_after_remove with (n := files w). }
  destruct Hm as (m & R1 & Mk1).
  pose proof (remove_was_present _ _ _ R1) as L1.
  unfold preparePythonEnvDir, bind, ret, existsSync, console_log, emit,
    rmSync_recursive, mkdirSync_recursive; cbn [files trace].
  destruct (lookup (segments (pythonEnvDir buildPaths)) (files w1));
    [|contradiction].
  cbn [isSome files trace]. rewrite R1. cbn [files trace]. rewrite Mk1.
  eexists. split; reflexivity.
Qed.

(** X21. [compressPythonEnvironment] never lets an exception through: it
    returns, or it ends the process, and then with exit status 1. *)
Theorem compress_never_throws (w : World) :
  exists w',
    compressPythonEnvironment env buildPaths w = (Return tt, w') \/
    compressPythonEnvironment env buildPaths w = (Exit 1%Z, w').
Proof.
  unfold compressPythonEnvironment, tryCatch, bind, ret, existsSync,
    console_log, console_error, emit, rmSync_recursive, spawnSync,
    process_exit; cbn [files trace].
  destruct (lookup _ (files w)); cbn [isSome files trace].
  - destruct (remove _ (files w)) as [cleared|]; cbn [files trace].
    + destruct (childProcess env _ _ _ _) as [result [code|]];
        cbn [statusIsNotZero files trace].
      * destruct (code =? 0)%Z; cbn [negb files trace]; eauto.
      * eauto.
    + eauto.
  - destruct (childProcess env _ _ _ _) as [result [code|]];
      cbn [statusIsNotZero files trace].
    + destruct (code =? 0)%Z; cbn [negb files trace]; eauto.
    + eauto.
Qed.

(** X22. The packaging runs one child process and no more: the compressor,
    with the arguments "a", the archive path and the staging directory
    joined with "*", in the build directory.  What it removes before is
    confined to the archive path: the compressor sees every regular file
    elsewhere as it was. *)
Theorem compress_spawns_once (w : World) :
  segments (pythonEnvArchive (resourceFiles buildPaths)) <> [] ->
  exists (cleared : node) (outcome : Outcome unit) (w' : World),
    compressPythonEnvironment env buildPaths w = (outcome, w') /\
    filter isWork (trace w')
      = (filter isWork (trace w)
         ++ [Spawn (sevenZipExe (resourceFiles buildPaths))
               ["a"; pythonEnvArchive (resourceFiles buildPaths);
                join (pythonEnvDir buildPaths) "*"]
               (buildDir buildPaths)])%list /\
    files w'
      = fst (childProcess env (sevenZipExe (resourceFiles buildPaths))
               ["a"; pythonEnvArchive (resourceFiles buildPaths);
                join (pythonEnvDir buildPaths) "*"]
               (buildDir buildPaths) cleared) /\
    (forall other,
        (forall rest,
            segments other
            <> (segments (pythonEnvArchive (resourceFiles buildPaths))
                ++ rest)%list) ->
        readFile other cleared = readFile other (files w)).
Proof.
  intros Hp.
  unfold compressPythonEnvironment, tryCatch, bind, ret, existsSync,
    console_log, console_error, emit, rmSync_recursive, spawnSync,
    process_exit; cbn [files trace].
  destruct (lookup (segments (pythonEnvArchive (resourceFiles buildPaths)))
              (files w)) as [present|] eqn:L; cbn [isSome files trace].
  - destruct (remove (segments (pythonEnvArchive (resourceFiles buildPaths)))
                (files w)) as [cleared|] eqn:R.
    2:{ exfalso. apply (remove_present _ (files w) Hp); [congruence|exact R]. }
    cbn [files trace]. exists cleared.
    destruct (childProcess env _ _ _ cleared) as [result [code|]];
      cbn [statusIsNotZero files trace fst];
      [destruct (code =? 0)%Z; cbn [negb files trace]|];
      eexists; eexists; (split; [reflexivity|]); cbn [files trace];
      (split; [rewrite ?filter_isWork_log, ?filter_isWork_error, filter_app,
                 !filter_isWork_log; reflexivity|]);
      (split; [reflexivity|]);
      intros other Hout; apply readFile_same_files; intros content;
      now apply lookup_remove_other with (1 := R).
  - exists (files w).
    destruct (childProcess env _ _ _ (files w)) as [result [code|]];
      cbn [statusIsNotZero files trace fst];
      [destruct (code =? 0)%Z; cbn [negb files trace]|];
      eexists; eexists; (split; [reflexivity|]); cbn [files trace];
      (split; [rewrite ?filter_isWork_log, ?filter_isWork_error, filter_app,
                 !filter_isWork_log; reflexivity|]);
      (split; [reflexivity|]); reflexivity.
Qed.

(** X23. Whatever its outcome, [createPythonEnvFromEmbeddableZip] asks for
    one extraction, of the archive it was given into the staging directory,
    and for nothing else outside the files and the console: no request, no
    child process. *)
Theorem createPythonEnv_extracts_once (zipFile : string) (w : World) :
  exists (outcome : Outcome unit) (w' : World),
    createPythonEnvFromEmbeddableZip env buildPaths zipFile w = (outcome, w') /\
    filter isWork (trace w')
      = (filter isWork (trace w)
         ++ [Extract zipFile (pythonEnvDir buildPaths)])%list.
Proof.
  unfold createPythonEnvFromEmbeddableZip, tryCatch, bind, ret, console_log,
    console_error, emit, extractAllTo, readdirSync, writeFileSync,
    process_exit; cbn [files trace].
  destruct (admZip env zipFile (pythonEnvDir buildPaths) (files w))
    as [extracted [reason|]]; cbn [files trace].
  { eexists. eexists. split; [reflexivity|]. cbn [files trace].
    now rewrite filter_isWork_error, filter_app, filter_isWork_log. }
  destruct (listing (pythonEnvDir buildPaths) extracted) as [names|];
    cbn [files trace].
  2:{ eexists. eexists. split; [reflexivity|]. cbn [files trace].
      now rewrite filter_isWork_error, !filter_isWork_log, filter_app,
        filter_isWork_log. }
  destruct (findPthFile names) as [[version|] [name|]]; cbn [files trace];
    try (eexists; eexists; split; [reflexivity|]; cbn [files trace];
         now rewrite filter_isWork_error, !filter_isWork_log, filter_app,
           filter_isWork_log).
  destruct (negb (truthy (Some version)) || negb (truthy (Some name)));
    cbn [files trace];
    try (eexists; eexists; split; [reflexivity|]; cbn [files trace];
         now rewrite filter_isWork_error, !filter_isWork_log, filter_app,
           filter_isWork_log).
  destruct (write _ _ extracted) as [rewritten|]; cbn [files trace].
  - eexists. eexists. split; [reflexivity|]. cbn [files trace].
    now rewrite !filter_isWork_log, filter_app, filter_isWork_log.
  - eexists. eexists. split; [reflexivity|]. cbn [files trace].
    now rewrite filter_isWork_error, !filter_isWork_log, filter_app,
      filter_isWork_log.
Qed.

(** X24. The reset does not catch what goes wrong: when a regular file
    stands on the way to the staging directory, [preparePythonEnvDir]
    throws the error of [mkdirSync], without ending the process and
    without changing a file or printing a message. *)
Theorem reset_throws_below_a_file
        (w : World) (before rest : list string) (content : string) :
  segments (pythonEnvDir buildPaths) = (before ++ rest)%list ->
  rest <> [] ->
  lookup before (files w) = Some (File content) ->
  preparePythonEnvDir buildPaths w
    = (Throw (fsError "mkdir" (pythonEnvDir buildPaths)), w).
Proof.
  intros Hp Hr L.
  unfold preparePythonEnvDir, bind, ret, existsSync, console_log, emit,
    rmSync_recursive, mkdirSync_recursive; cbn [files trace].
  rewrite Hp, lookup_app, L.
  destruct rest as [|k rest]; [contradiction|]. cbn [lookup isSome].
  now rewrite (mkdirp_below_file _ _ _ _ L).
Qed.

End PrepareMore.

(** * The further properties at work *)

Lemma getBaseFileName_last_piece_witness :
  FetchPythonPackageResources.getBaseFileName
    "https://example.org/dist/python-embed.zip?download=1"
    = "python-embed.zip?download=1" /\
  FetchPythonPackageResources.getBaseFileName "https://example.org/dist/" = "".
Proof.
  split.
  - apply (getBaseFileName_last_piece "https://example.org/dist"
             "python-embed.zip?download=1").
    reflexivity.
  - apply (getBaseFileName_last_piece "https://example.org/dist" "").
    reflexivity.
Defined.

Lemma directory_url_counts_as_cached_witness :
  exists w',
    FetchPythonPackageResources.downloadFileIfNotPresent
      Scenario.env Scenario.paths "https://example.org/dist/" Scenario.world
    = (Return (FetchPythonPackageResources.mkDownloadResult
                 "https://example.org/dist/" "/repo/build/resources/"
                 true None), w') /\
    files w' = files Scenario.world /\
    requests (trace w') = requests (trace Scenario.world).
Proof.
  eapply (directory_url_counts_as_cached Scenario.env Scenario.paths
            "https://example.org/dist" Scenario.world).
  vm_compute. reflexivity.
Defined.

Lemma download_touches_only_target_witness :
  exists r w',
    FetchPythonPackageResources.downloadFile Scenario.env
      "https://example.org/dist/get-pip.py"
      "/repo/build/resources/get-pip.py" Scenario.world = (Return r, w') /\
    readFile "/repo/build/resources/get-pip.py" (files w') = Some "payload" /\
    readFile "/repo/build/resources/python-embed.zip" (files w') = Some "PK".
Proof.
  eexists. eexists. split; [vm_compute; reflexivity|].
  split; [vm_compute; reflexivity|].
  edestruct (download_touches_only_target Scenario.env
               "https://example.org/dist/get-pip.py"
               "/repo/build/resources/get-pip.py" Scenario.world) as [F _].
  - vm_compute. reflexivity.
  - etransitivity; [apply F|].
    + vm_compute. discriminate.
    + vm_compute. reflexivity.
Defined.

Lemma failed_request_writes_nothing_witness :
  (exists w',
      FetchPythonPackageResources.downloadFile Cases.env
        "https://unreachable.invalid/get-pip.py"
        "/repo/build/resources/get-pip.py" Scenario.world
      = (Return (FetchPythonPackageResources.mkDownloadResult
                   "https://unreachable.invalid/get-pip.py"
                   "/repo/build/resources/get-pip.py" false
                   (Some "fetch failed")), w') /\
      files w' = files Scenario.world) /\
  (exists w',
      FetchPythonPackageResources.downloadFile Cases.env
        "https://example.org/dist/nobody.zip"
        "/repo/build/resources/nobody.zip" Scenario.world
      = (Return (FetchPythonPackageResources.mkDownloadResult
                   "https://example.org/dist/nobody.zip"
                   "/repo/build/resources/nobody.zip" false
                   (Some "Response body is null")), w') /\
      files w' = files Scenario.world).
Proof.
  split.
  - apply (proj1 (failed_request_writes_nothing Cases.env
                    "https://unreachable.invalid/get-pip.py"
                    "/repo/build/resources/get-pip.py" Scenario.world)
             (JsError "TypeError" "fetch failed")).
    vm_compute. reflexivity.
  - apply (proj2 (failed_request_writes_nothing Cases.env
                    "https://example.org/dist/nobody.zip"
                    "/repo/build/resources/nobody.zip" Scenario.world)
             (mkResponse 204 "No Content" None)).
    + vm_compute. reflexivity.
    + vm_compute. reflexivity.
    + reflexivity.
Defined.

Lemma broken_download_is_then_cached_witness :
  exists w1,
    FetchPythonPackageResources.downloadFileIfNotPresent Cases.env
      Scenario.paths "https://example.org/dist/truncated.zip" Scenario.world
    = (Return (FetchPythonPackageResources.mkDownloadResult
                 "https://example.org/dist/truncated.zip"
                 (FetchPythonPackageResources.expectedFilePath Scenario.paths
                    "https://example.org/dist/truncated.zip")
                 false
                 (Some (FetchPythonPackageResources.errorMessage
                          (JsError "TypeError" "terminated")))), w1) /\
    readFile (FetchPythonPackageResources.expectedFilePath Scenario.paths
                "https://example.org/dist/truncated.zip") (files w1)
      = Some (delivered (mkBody "PK-part" (Some (JsError "TypeError" "terminated")))) /\
    exists w2,
      FetchPythonPackageResources.downloadFileIfNotPresent Cases.env
        Scenario.paths "https://example.org/dist/truncated.zip" w1
      = (Return (FetchPythonPackageResources.mkDownloadResult
                   "https://example.org/dist/truncated.zip"
                   (FetchPythonPackageResources.expectedFilePath Scenario.paths
                      "https://example.org/dist/truncated.zip")
                   true None), w2) /\
      files w2 = files w1 /\
      requests (trace w2) = requests (trace w1).
Proof.
  eapply (broken_download_is_then_cached Cases.env Scenario.paths
            "https://example.org/dist/truncated.zip" Scenario.world
            (mkResponse 200 "OK"
               (Some (mkBody "PK-part" (Some (JsError "TypeError" "terminated")))))).
  - vm_compute. reflexivity.
  - vm_compute. reflexivity.
  - vm_compute. reflexivity.
  - reflexivity.
  - reflexivity.
  - vm_compute. reflexivity.
Defined.

Lemma same_name_shares_destination_witness :
  exists w1 w2,
    FetchPythonPackageResources.downloadFileIfNotPresent Scenario.env
      Scenario.paths "https://mirror.example.net/files/get-pip.py" w1
    = (Return (FetchPythonPackageResources.mkDownloadResult
                 "https://mirror.example.net/files/get-pip.py"
                 (FetchPythonPackageResources.expectedFilePath Scenario.paths
                    "https://example.org/dist/get-pip.py")
                 true None), w2) /\
    files w2 = files w1 /\
    requests (trace w2) = requests (trace w1).
Proof.
  eexists.
  eapply (same_name_shares_destination Scenario.env Scenario.paths
            "https://example.org/dist/get-pip.py"
            "https://mirror.example.net/files/get-pip.py" Scenario.world).
  - vm_compute. reflexivity.
  - vm_compute. reflexivity.
  - reflexivity.
Defined.

Lemma prepareDirectories_makes_directories_witness :
  exists w',
    FetchPythonPackageResources.prepareDirectories Scenario.paths Cases.blank
      = (Return tt, w') /\
    exists es,
      lookup (segments (resourcesDir Scenario.paths)) (files w')
        = Some (Dir es).
Proof.
  eexists. split; [vm_compute; reflexivity|].
  edestruct (prepareDirectories_makes_directories Scenario.paths Cases.blank)
    as (E & _).
  - vm_compute. reflexivity.
  - apply (E (resourcesDir Scenario.paths) (or_intror eq_refl)).
    vm_compute. reflexivity.
Defined.

Lemma prepareDirectories_is_idempotent_witness :
  exists w1,
    FetchPythonPackageResources.prepareDirectories Scenario.paths Cases.blank
      = (Return tt, w1) /\
    FetchPythonPackageResources.prepareDirectories Scenario.paths w1
      = (Return tt,
         mkWorld (files w1)
           (trace w1 ++ [ConsoleLog "📁 Preparing build directories..."])).
Proof.
  eexists. split; [vm_compute; reflexivity|].
  eapply (prepareDirectories_is_idempotent Scenario.paths Cases.blank).
  vm_compute. reflexivity.
Defined.

Lemma download_needs_resources_directory_witness :
  exists r w',
    FetchPythonPackageResources.downloadFileIfNotPresent Scenario.env
      Scenario.paths "https://example.org/dist/get-pip.py" Cases.blank
    = (Return r, w') /\
    FetchPythonPackageResources.success r = false /\
    files w' = files Cases.blank.
Proof.
  eapply (download_needs_resources_directory Scenario.env Scenario.paths
            "https://example.org/dist/get-pip.py" Cases.blank).
  - vm_compute. reflexivity.
  - vm_compute. discriminate.
  - vm_compute. reflexivity.
  - reflexivity.
  - reflexivity.
Defined.

Lemma download_after_prepareDirectories_witness :
  exists w1 w2,
    FetchPythonPackageResources.prepareDirectories Scenario.paths Cases.blank
      = (Return tt, w1) /\
    FetchPythonPackageResources.downloadFileIfNotPresent Scenario.env
      Scenario.paths "https://example.org/dist/get-pip.py" w1
    = (Return (FetchPythonPackageResources.mkDownloadResult
                 "https://example.org/dist/get-pip.py"
                 (FetchPythonPackageResources.expectedFilePath Scenario.paths
                    "https://example.org/dist/get-pip.py")
                 true None), w2) /\
    lookup (segments (FetchPythonPackageResources.expectedFilePath
                        Scenario.paths "https://example.org/dist/get-pip.py"))
      (files w2) <> None.
Proof.
  eexists.
  edestruct (download_after_prepareDirectories Scenario.env Scenario.paths
               "https://example.org/dist/get-pip.py" Cases.blank)
    as (w2 & E & L).
  - vm_compute. reflexivity.
  - vm_compute. reflexivity.
  - vm_compute. discriminate.
  - vm_compute. reflexivity.
  - reflexivity.
  - reflexivity.
  - reflexivity.
  - exists w2. split; [vm_compute; reflexivity|]. split; [exact E|exact L].
Defined.

Lemma pattern_matches_exactly_witness :
  PreparePythonEnv.pthFilePattern "python312._pth" = Some "312" /\
  PreparePythonEnv.pthFilePattern "python312._pth.bak" = None.
Proof.
  split; [reflexivity|].
  apply (proj2 pattern_matches_exactly "python312._pth" "312" ".bak").
  - reflexivity.
  - discriminate.
Defined.

Lemma createPythonEnv_return_means_rewritten_witness :
  exists w' extracted names version name,
    PreparePythonEnv.createPythonEnvFromEmbeddableZip Scenario.env
      Scenario.paths "/repo/build/resources/python-embed.zip" Scenario.staged
    = (Return tt, w') /\
    admZip Scenario.env "/repo/build/resources/python-embed.zip"
      (pythonEnvDir Scenario.paths) (files Scenario.staged)
    = (extracted, None) /\
    listing (pythonEnvDir Scenario.paths) extracted = Some names /\
    PreparePythonEnv.findPthFile names = (Some version, Some name) /\
    readFile (join (pythonEnvDir Scenario.paths) name) (files w')
      = Some (PreparePythonEnv.pthContent version).
Proof.
  eexists.
  edestruct (createPythonEnv_return_means_rewritten Scenario.env Scenario.paths
               "/repo/build/resources/python-embed.zip" Scenario.staged)
    as (extracted & names & version & name & Hz & Hl & Hf & R).
  - vm_compute. reflexivity.
  - exists extracted, names, version, name.
    split; [vm_compute; reflexivity|]. auto.
Defined.

Lemma extraction_failure_is_fatal_witness :
  PreparePythonEnv.createPythonEnvFromEmbeddableZip Cases.env Scenario.paths
    "/repo/build/resources/broken.zip" Scenario.staged
  = (Exit 1%Z,
     mkWorld (files Scenario.staged)
       (trace Scenario.staged
        ++ [ConsoleLog "📦 Extracting embeddable Python..."]
        ++ [Extract "/repo/build/resources/broken.zip"
              (pythonEnvDir Scenario.paths)]
        ++ [ConsoleError
              ("❌ Failed to extract Python zip: "
                 ++ jsString (JsError "Error"
                                "Invalid or unsupported zip format"))])%list).
Proof.
  apply (extraction_failure_is_fatal Cases.env Scenario.paths
           "/repo/build/resources/broken.zip" Scenario.staged).
  vm_compute. reflexivity.
Defined.

Lemma unusable_staging_directory_is_fatal_witness :
  (exists w',
      PreparePythonEnv.createPythonEnvFromEmbeddableZip Cases.env
        Scenario.paths "/repo/build/resources/empty.zip" Cases.blank
      = (Exit 1%Z, w') /\
      files w' = files Cases.blank) /\
  (exists w',
      PreparePythonEnv.createPythonEnvFromEmbeddableZip Cases.env
        Scenario.paths "/repo/build/resources/odd.zip" Scenario.staged
      = (Exit 1%Z, w') /\
      lookup (segments "/repo/build/python-env/python312._pth") (files w')
        = Some (Dir [])).
Proof.
  split.
  - edestruct (unusable_staging_directory_is_fatal Cases.env Scenario.paths
                 "/repo/build/resources/empty.zip" Cases.blank) as [H _].
    + vm_compute. reflexivity.
    + apply H. vm_compute. reflexivity.
  - edestruct (unusable_staging_directory_is_fatal Cases.env Scenario.paths
                 "/repo/build/resources/odd.zip" Scenario.staged) as [_ H].
    + vm_compute. reflexivity.
    + edestruct (H ["python312._pth"; "python.exe"] "312" "python312._pth")
        as (w' & E & F).
      * vm_compute. reflexivity.
      * vm_compute. reflexivity.
      * vm_compute. reflexivity.
      * exists w'. split; [exact E|]. rewrite F. vm_compute. reflexivity.
Defined.

Lemma rewrite_keeps_the_listing_witness :
  exists w',
    PreparePythonEnv.createPythonEnvFromEmbeddableZip Scenario.env
      Scenario.paths "/repo/build/resources/python-embed.zip" Scenario.staged
    = (Return tt, w') /\
    listing (pythonEnvDir Scenario.paths) (files w')
      = Some ["python.exe"; "python312._pth"; "python311._pth";
              "python312.zip"].
Proof.
  eexists. split; [vm_compute; reflexivity|].
  eapply (rewrite_keeps_the_listing Scenario.env Scenario.paths
            "/repo/build/resources/python-embed.zip" Scenario.staged).
  - vm_compute. reflexivity.
  - vm_compute. reflexivity.
  - vm_compute. reflexivity.
  - vm_compute. reflexivity.
  - vm_compute. reflexivity.
Defined.

Lemma reset_touches_only_staging_directory_witness :
  exists w',
    PreparePythonEnv.preparePythonEnvDir Scenario.paths Scenario.world
      = (Return tt, w') /\
    readFile "/repo/build/resources/python-embed.zip" (files w') = Some "PK".
Proof.
  eexists. split; [vm_compute; reflexivity|].
  edestruct (reset_touches_only_staging_directory Scenario.paths
               Scenario.world) as [F _].
  - vm_compute. reflexivity.
  - etransitivity; [apply F|].
    + intros rest. vm_compute. discriminate.
    + vm_compute. reflexivity.
Defined.

Lemma reset_is_idempotent_witness :
  exists w1 w2,
    PreparePythonEnv.preparePythonEnvDir Scenario.paths Scenario.world
      = (Return tt, w1) /\
    PreparePythonEnv.preparePythonEnvDir Scenario.paths w1 = (Return tt, w2) /\
    files w2 = files w1.
Proof.
  eexists.
  edestruct (reset_is_idempotent Scenario.paths Scenario.world)
    as (w2 & E & F).
  - vm_compute. reflexivity.
  - exists w2. split; [vm_compute; reflexivity|]. split; [exact E|exact F].
Defined.

Lemma compress_spawns_once_witness :
  exists (cleared : node) (outcome : Outcome unit) (w' : World),
    PreparePythonEnv.compressPythonEnvironment Scenario.env Scenario.paths
      Scenario.world = (outcome, w') /\
    filter isWork (trace w')
      = (filter isWork (trace Scenario.world)
         ++ [Spawn (sevenZipExe (resourceFiles Scenario.paths))
               ["a"; pythonEnvArchive (resourceFiles Scenario.paths);
                join (pythonEnvDir Scenario.paths) "*"]
               (buildDir Scenario.paths)])%list /\
    readFile "/repo/build/python-env/junk.txt" cleared
      = readFile "/repo/build/python-env/junk.txt" (files Scenario.world).
Proof.
  destruct (compress_spawns_once Scenario.env Scenario.paths Scenario.world)
    as (cleared & outcome & w' & E & T & _ & F).
  - vm_compute. discriminate.
  - exists cleared, outcome, w'. split; [exact E|]. split; [exact T|].
    apply F. intros rest. vm_compute. discriminate.
Defined.

Lemma reset_throws_below_a_file_witness :
  PreparePythonEnv.preparePythonEnvDir Scenario.paths Cases.blocked
  = (Throw (fsError "mkdir" (pythonEnvDir Scenario.paths)), Cases.blocked).
Proof.
  apply (reset_throws_below_a_file Scenario.paths Cases.blocked
           ["repo"; "build"] ["python-env"] "not a directory").
  - vm_compute. reflexivity.
  - discriminate.
  - reflexivity.
Defined.
